(** * terraform-aws-rds: the [RdsModule] construct of [src/index.ts]

    The module is one constructor.  It registers a fixed sequence of
    resources under [this] and then, on the [isAurora] flag, either a
    cluster with a loop of cluster instances or one standalone instance.

    Modelling choices.
    - The children of [this] are the state: an association list in creation
      order, threaded through a small state-and-error monad.  The run starts
      after [super(scope, id)], on a [this] without children.  The source has
      no [throw] and no check of its own; the one failure a [new R(this, id,
      ...)] can meet is that of the [constructs] library, which refuses a
      second child under an id already in use.  The provider constructors
      themselves only record the configuration they are given.
    - A JavaScript [number] field is an integer ([Z]): the three numeric
      fields are a retention period, a storage size and an instance count.
      [undefined] is [None]; the non-null assertion [x!] is erased, as it is
      in the compiled program.
    - An attribute read back from a resource object ([caller.userId],
      [auroraCluster.endpoint], ...) is a token: it is kept symbolic as
      [Token id attr], [id] being the construct id of the resource and
      [attr] the property read.
    - A JavaScript object used as a string-keyed map is a [gmap string]. *)

From Stdlib Require Import ZArith String Ascii List Lia.
From stdpp Require Import base tactics option strings list gmap pretty.

Local Open Scope string_scope.
Local Open Scope Z_scope.
Local Open Scope list_scope.

(** ** JavaScript primitives used by the constructor *)

Module Js.

(** [p] is a prefix of [s]. *)
Fixpoint startsWith (s p : string) {struct p} : bool :=
  match p, s with
  | EmptyString, _ => true
  | String _ _, EmptyString => false
  | String a p', String b s' => if Ascii.eqb a b then startsWith s' p' else false
  end.

(** [String.prototype.includes]: [p] occurs in [s] at some position. *)
Fixpoint includes (s p : string) : bool :=
  startsWith s p ||
  match s with
  | EmptyString => false
  | String _ s' => includes s' p
  end.

(** [x || d] on an optional number: [undefined] and [0] are falsy. *)
Definition or_number (x : option Z) (d : Z) : Z :=
  match x with
  | Some k => if k =? 0 then d else k
  | None => d
  end.

(** [x || d] on an optional string: [undefined] and the empty string are falsy. *)
Definition or_string (x : option string) (d : string) : string :=
  match x with
  | Some EmptyString => d
  | Some s => s
  | None => d
  end.

(** [x !== undefined && x > k]. *)
Definition defined_and_gt (x : option Z) (k : Z) : bool :=
  match x with
  | Some v => k <? v
  | None => false
  end.

(** Template literal [`${i}`] of an integer. *)
Definition number_to_string (i : Z) : string := pretty i.

End Js.

(** ** Values of resource attributes *)

Inductive TfString : Type :=
| Str (s : string)
| Token (id attr : string).

#[global] Instance TfString_eq_dec : EqDecision TfString.
Proof. solve_decision. Defined.

Abbreviation Tags := (gmap string TfString).

(** Object spread [{ ...a, ...b }]: the keys of both, [b] winning. *)
Definition spread (a b : Tags) : Tags := b ∪ a.

(** ** The configuration types *)

Module VpcModule.
Record t : Type := {
  vpc_id : string;
  vpc_cidr : string;
  vpc_ipv6_cidr : string;
  database_subnet_ids : option (list string);
}.
End VpcModule.

Module RdsModuleConfig.
Record t : Type := {
  username : string;
  password : string;
  maintenanceWindow : string;
  backupWindow : string;
  backupRetentionPeriod : Z;
  dbName : string;
  engine : string;
  engineVersion : string;
  instanceClass : option string;
  isAurora : bool;
  numberOfInstances : option Z;
  allocatedStorage : option Z;
  serviceName : string;
  env : string;
  tags : option (gmap string string);
  vpc : VpcModule.t;
}.
End RdsModuleConfig.

(** ** The provider resources, as the constructor fills them *)

Module SecurityGroupRule.
Record t : Type := {
  protocol : string;
  fromPort : Z;
  toPort : Z;
  cidrBlocks : list string;
  ipv6CidrBlocks : list string;
  description : option string;
}.
End SecurityGroupRule.

Module SecurityGroupConfig.
Record t : Type := {
  name : string;
  description : string;
  vpcId : string;
  ingress : list SecurityGroupRule.t;
  egress : list SecurityGroupRule.t;
  tags : Tags;
}.
End SecurityGroupConfig.

Module DbSubnetGroupConfig.
Record t : Type := {
  name : string;
  subnetIds : option (list string);
  tags : Tags;
}.
End DbSubnetGroupConfig.

Module RdsClusterConfig.
Record t : Type := {
  clusterIdentifier : string;
  engine : string;
  engineVersion : string;
  databaseName : string;
  masterUsername : string;
  masterPassword : string;
  backupRetentionPeriod : Z;
  preferredBackupWindow : string;
  preferredMaintenanceWindow : string;
  skipFinalSnapshot : bool;
  storageType : string;
  storageEncrypted : bool;
  dbSubnetGroupName : TfString;
  vpcSecurityGroupIds : list TfString;
  tags : Tags;
}.
End RdsClusterConfig.

Module RdsClusterInstanceConfig.
Record t : Type := {
  clusterIdentifier : TfString;
  engine : TfString;
  instanceClass : string;
  dbSubnetGroupName : TfString;
  tags : Tags;
}.
End RdsClusterInstanceConfig.

Module DbInstanceConfig.
Record t : Type := {
  identifier : string;
  engine : string;
  engineVersion : string;
  instanceClass : option string;
  allocatedStorage : option Z;
  dbName : string;
  username : string;
  password : string;
  backupRetentionPeriod : Z;
  backupWindow : string;
  maintenanceWindow : string;
  skipFinalSnapshot : bool;
  dbSubnetGroupName : TfString;
  vpcSecurityGroupIds : list TfString;
  storageEncrypted : bool;
  storageType : string;
  multiAz : bool;
  tags : Tags;
}.
End DbInstanceConfig.

Module TerraformOutputConfig.
Record t : Type := {
  value : TfString;
}.
End TerraformOutputConfig.

Inductive Resource : Type :=
| DataAwsCallerIdentity
| StaticResource
| SecurityGroup (c : SecurityGroupConfig.t)
| DbSubnetGroup (c : DbSubnetGroupConfig.t)
| RdsCluster (c : RdsClusterConfig.t)
| RdsClusterInstance (c : RdsClusterInstanceConfig.t)
| DbInstance (c : DbInstanceConfig.t)
| TerraformOutput (c : TerraformOutputConfig.t).

(** ** The construct scope and its monad *)

Inductive Error : Type :=
| DuplicateId (id : string)
| LoopFuel.

Inductive Result (A : Type) : Type :=
| Ok (a : A)
| Throw (e : Error).
Arguments Ok {A} a.
Arguments Throw {A} e.

(** The children of [this], oldest first. *)
Definition Scope : Type := list (string * Resource).

Definition M (A : Type) : Type := Scope -> Result (A * Scope).

#[global] Instance M_ret : MRet M := fun A a sc => Ok (a, sc).

#[global] Instance M_bind : MBind M := fun A B k m sc =>
  match m sc with
  | Ok (a, sc') => k a sc'
  | Throw e => Throw e
  end.

Definition throw {A} (e : Error) : M A := fun _ => Throw e.

(** [new R(this, id, config)]: the resource becomes the newest child of
    [this] and the call returns its handle; an id already taken throws. *)
Definition new (id : string) (r : Resource) : M string :=
  fun sc =>
    if decide (id ∈ sc.*1) then Throw (DuplicateId id)
    else Ok (id, sc ++ [(id, r)]).

(** [for (let i = i0; i < n; i++) body(i)].  The loop needs
    [Z.to_nat (n - i0)] rounds; [fuel] bounds them. *)
Fixpoint for_lt (fuel : nat) (i n : Z) (body : Z -> M unit) : M unit :=
  if i <? n then
    match fuel with
    | O => throw LoopFuel
    | S fuel' => body i;; for_lt fuel' (i + 1) n body
    end
  else mret tt.

(** ** The module and its constructor *)

Module RdsModule.
(** The public fields; [securityGroup] holds the handle of the group. *)
Record t : Type := {
  rdsEndpoint : TfString;
  username : string;
  password : string;
  securityGroup : string;
}.
End RdsModule.

Definition defaultTags (serviceName env caller timeStatic : string) : Tags :=
  {[ "Name" := Str (serviceName +:+ "-" +:+ env);
     "Service" := Str serviceName;
     "ENV" := Str env;
     "Provisioner" := Str "CDKTF";
     "Provisioned By" := Token caller "userId";
     "Provisioned Date" := Token timeStatic "id" ]}.

Definition constructor (config : RdsModuleConfig.t) : M RdsModule.t :=
  let username := RdsModuleConfig.username config in
  let password := RdsModuleConfig.password config in
  let maintenanceWindow := RdsModuleConfig.maintenanceWindow config in
  let backupWindow := RdsModuleConfig.backupWindow config in
  let backupRetentionPeriod := RdsModuleConfig.backupRetentionPeriod config in
  let dbName := RdsModuleConfig.dbName config in
  let engine := RdsModuleConfig.engine config in
  let engineVersion := RdsModuleConfig.engineVersion config in
  let instanceClass := RdsModuleConfig.instanceClass config in
  let isAurora := RdsModuleConfig.isAurora config in
  let numberOfInstances := RdsModuleConfig.numberOfInstances config in
  let allocatedStorage := RdsModuleConfig.allocatedStorage config in
  let serviceName := RdsModuleConfig.serviceName config in
  let env := RdsModuleConfig.env config in
  let tags : Tags := Str <$> default ∅ (RdsModuleConfig.tags config) in
  let vpc := RdsModuleConfig.vpc config in
  caller ← new "caller" DataAwsCallerIdentity;
  timeStatic ← new "timestamp" StaticResource;
  let defaultTags := defaultTags serviceName env caller timeStatic in
  securityGroup ← new "rds-sg" (SecurityGroup {|
    SecurityGroupConfig.name := serviceName +:+ "-" +:+ env +:+ "-rds-sg";
    SecurityGroupConfig.description :=
      "Security group for " +:+ serviceName +:+ " RDS";
    SecurityGroupConfig.vpcId := VpcModule.vpc_id vpc;
    SecurityGroupConfig.ingress := [ {|
      SecurityGroupRule.protocol := "tcp";
      SecurityGroupRule.fromPort :=
        if Js.includes engine "postgres" then 5432 else 3306;
      SecurityGroupRule.toPort :=
        if Js.includes engine "postgres" then 5432 else 3306;
      SecurityGroupRule.cidrBlocks := [VpcModule.vpc_cidr vpc];
      SecurityGroupRule.ipv6CidrBlocks := [VpcModule.vpc_ipv6_cidr vpc];
      SecurityGroupRule.description := Some (
        "Allow " +:+
        (if Js.includes engine "postgres" then "PostgreSQL" else "MySQL")
        +:+ " traffic");
    |} ];
    SecurityGroupConfig.egress := [ {|
      SecurityGroupRule.protocol := "-1";
      SecurityGroupRule.fromPort := 0;
      SecurityGroupRule.toPort := 0;
      SecurityGroupRule.cidrBlocks := ["0.0.0.0/0"];
      SecurityGroupRule.ipv6CidrBlocks := ["::/0"];
      SecurityGroupRule.description := None;
    |} ];
    SecurityGroupConfig.tags := spread defaultTags tags;
  |});
  dbSubnetGroup ← new "db-subnet-group" (DbSubnetGroup {|
    DbSubnetGroupConfig.name :=
      serviceName +:+ "-" +:+ env +:+ "-db-subnet-group";
    DbSubnetGroupConfig.subnetIds := VpcModule.database_subnet_ids vpc;
    DbSubnetGroupConfig.tags := spread defaultTags tags;
  |});
  rdsEndpoint ← (
    if isAurora then
      auroraCluster ← new "rds-cluster" (RdsCluster {|
        RdsClusterConfig.clusterIdentifier :=
          serviceName +:+ "-" +:+ env +:+ "-aurora-cluster";
        RdsClusterConfig.engine := engine;
        RdsClusterConfig.engineVersion := engineVersion;
        RdsClusterConfig.databaseName := dbName;
        RdsClusterConfig.masterUsername := username;
        RdsClusterConfig.masterPassword := password;
        RdsClusterConfig.backupRetentionPeriod := backupRetentionPeriod;
        RdsClusterConfig.preferredBackupWindow := backupWindow;
        RdsClusterConfig.preferredMaintenanceWindow := maintenanceWindow;
        RdsClusterConfig.skipFinalSnapshot := true;
        RdsClusterConfig.storageType := "gp3";
        RdsClusterConfig.storageEncrypted := true;
        RdsClusterConfig.dbSubnetGroupName := Token dbSubnetGroup "name";
        RdsClusterConfig.vpcSecurityGroupIds := [Token securityGroup "id"];
        RdsClusterConfig.tags := spread defaultTags tags;
      |});
      let numInstances := Js.or_number numberOfInstances 1 in
      for_lt (Z.to_nat numInstances) 0 numInstances (fun i =>
        new ("rds-cluster-instance-" +:+ Js.number_to_string i)
          (RdsClusterInstance {|
            RdsClusterInstanceConfig.clusterIdentifier :=
              Token auroraCluster "id";
            RdsClusterInstanceConfig.engine := Token auroraCluster "engine";
            RdsClusterInstanceConfig.instanceClass :=
              Js.or_string instanceClass "db.t4g.medium";
            RdsClusterInstanceConfig.dbSubnetGroupName :=
              Token dbSubnetGroup "name";
            RdsClusterInstanceConfig.tags := spread defaultTags tags;
          |});;
        mret tt);;
      new "aurora_cluster_endpoint" (TerraformOutput {|
        TerraformOutputConfig.value := Token auroraCluster "endpoint";
      |});;
      mret (Token auroraCluster "endpoint")
    else
      rdsInstance ← new "rds-instance" (DbInstance {|
        DbInstanceConfig.identifier :=
          serviceName +:+ "-" +:+ env +:+ "-rds-instance";
        DbInstanceConfig.engine := engine;
        DbInstanceConfig.engineVersion := engineVersion;
        DbInstanceConfig.instanceClass := instanceClass;
        DbInstanceConfig.allocatedStorage := allocatedStorage;
        DbInstanceConfig.dbName := dbName;
        DbInstanceConfig.username := username;
        DbInstanceConfig.password := password;
        DbInstanceConfig.backupRetentionPeriod := backupRetentionPeriod;
        DbInstanceConfig.backupWindow := backupWindow;
        DbInstanceConfig.maintenanceWindow := maintenanceWindow;
        DbInstanceConfig.skipFinalSnapshot := true;
        DbInstanceConfig.dbSubnetGroupName := Token dbSubnetGroup "name";
        DbInstanceConfig.vpcSecurityGroupIds := [Token securityGroup "id"];
        DbInstanceConfig.storageEncrypted := true;
        DbInstanceConfig.storageType := "gp3";
        DbInstanceConfig.multiAz := Js.defined_and_gt numberOfInstances 1;
        DbInstanceConfig.tags := spread defaultTags tags;
      |});
      new "rds_instance_endpoint" (TerraformOutput {|
        TerraformOutputConfig.value := Token rdsInstance "endpoint";
      |});;
      mret (Token rdsInstance "endpoint"));
  mret {|
    RdsModule.rdsEndpoint := rdsEndpoint;
    RdsModule.username := username;
    RdsModule.password := password;
    RdsModule.securityGroup := securityGroup;
  |}.

(** [new RdsModule(scope, id, config)]: the constructor runs on a [this]
    that has no children yet. *)
Definition new_RdsModule (config : RdsModuleConfig.t)
  : Result (RdsModule.t * Scope) :=
  constructor config [].

Definition sample_vpc : VpcModule.t := {|
  VpcModule.vpc_id := "vpc-1";
  VpcModule.vpc_cidr := "10.0.0.0/16";
  VpcModule.vpc_ipv6_cidr := "fd00::/56";
  VpcModule.database_subnet_ids := Some ["subnet-a"; "subnet-b"];
|}.

Definition sample (engine : string) (isAurora : bool)
  (instanceClass : option string) (numberOfInstances allocatedStorage : option Z)
  (tags : option (gmap string string)) : RdsModuleConfig.t := {|
  RdsModuleConfig.username := "admin";
  RdsModuleConfig.password := "secret";
  RdsModuleConfig.maintenanceWindow := "sun:03:00-sun:04:00";
  RdsModuleConfig.backupWindow := "01:00-02:00";
  RdsModuleConfig.backupRetentionPeriod := 7;
  RdsModuleConfig.dbName := "app";
  RdsModuleConfig.engine := engine;
  RdsModuleConfig.engineVersion := "14";
  RdsModuleConfig.instanceClass := instanceClass;
  RdsModuleConfig.isAurora := isAurora;
  RdsModuleConfig.numberOfInstances := numberOfInstances;
  RdsModuleConfig.allocatedStorage := allocatedStorage;
  RdsModuleConfig.serviceName := "svc";
  RdsModuleConfig.env := "dev";
  RdsModuleConfig.tags := tags;
  RdsModuleConfig.vpc := sample_vpc;
|}.

(** The construct id of the cluster instance of loop round [i]. *)
Definition instance_id (i : Z) : string :=
  "rds-cluster-instance-" +:+ Js.number_to_string i.

(** ** What one run of the constructor leaves behind *)

(** The merged tag map every tagged resource is given. *)
Definition final_tags (config : RdsModuleConfig.t) : Tags :=
  spread
    (defaultTags (RdsModuleConfig.serviceName config)
       (RdsModuleConfig.env config) "caller" "timestamp")
    (Str <$> default ∅ (RdsModuleConfig.tags config)).

Definition ingress_port (config : RdsModuleConfig.t) : Z :=
  if Js.includes (RdsModuleConfig.engine config) "postgres" then 5432 else 3306.

(** The fields the theorems below read off each resource. *)
Record SecurityGroup_ok (config : RdsModuleConfig.t)
    (sg : SecurityGroupConfig.t) : Prop := {
  sg_fromPort :
    SecurityGroupRule.fromPort <$> SecurityGroupConfig.ingress sg =
    [ingress_port config];
  sg_toPort :
    SecurityGroupRule.toPort <$> SecurityGroupConfig.ingress sg =
    [ingress_port config];
  sg_tags : SecurityGroupConfig.tags sg = final_tags config;
}.

Record DbSubnetGroup_ok (config : RdsModuleConfig.t)
    (sub : DbSubnetGroupConfig.t) : Prop := {
  sub_tags : DbSubnetGroupConfig.tags sub = final_tags config;
}.

Record RdsCluster_ok (config : RdsModuleConfig.t)
    (cl : RdsClusterConfig.t) : Prop := {
  cl_engine : RdsClusterConfig.engine cl = RdsModuleConfig.engine config;
  cl_skipFinalSnapshot : RdsClusterConfig.skipFinalSnapshot cl = true;
  cl_storageType : RdsClusterConfig.storageType cl = "gp3";
  cl_storageEncrypted : RdsClusterConfig.storageEncrypted cl = true;
  cl_dbSubnetGroupName :
    RdsClusterConfig.dbSubnetGroupName cl = Token "db-subnet-group" "name";
  cl_tags : RdsClusterConfig.tags cl = final_tags config;
}.

Record RdsClusterInstance_ok (config : RdsModuleConfig.t)
    (ci : RdsClusterInstanceConfig.t) : Prop := {
  ci_clusterIdentifier :
    RdsClusterInstanceConfig.clusterIdentifier ci = Token "rds-cluster" "id";
  ci_engine : RdsClusterInstanceConfig.engine ci = Token "rds-cluster" "engine";
  ci_instanceClass :
    RdsClusterInstanceConfig.instanceClass ci =
    Js.or_string (RdsModuleConfig.instanceClass config) "db.t4g.medium";
  ci_dbSubnetGroupName :
    RdsClusterInstanceConfig.dbSubnetGroupName ci =
    Token "db-subnet-group" "name";
  ci_tags : RdsClusterInstanceConfig.tags ci = final_tags config;
}.

Record DbInstance_ok (config : RdsModuleConfig.t)
    (db : DbInstanceConfig.t) : Prop := {
  db_instanceClass :
    DbInstanceConfig.instanceClass db = RdsModuleConfig.instanceClass config;
  db_allocatedStorage :
    DbInstanceConfig.allocatedStorage db =
    RdsModuleConfig.allocatedStorage config;
  db_skipFinalSnapshot : DbInstanceConfig.skipFinalSnapshot db = true;
  db_storageType : DbInstanceConfig.storageType db = "gp3";
  db_storageEncrypted : DbInstanceConfig.storageEncrypted db = true;
  db_multiAz :
    DbInstanceConfig.multiAz db =
    Js.defined_and_gt (RdsModuleConfig.numberOfInstances config) 1;
  db_tags : DbInstanceConfig.tags db = final_tags config;
}.

Definition aurora_children (config : RdsModuleConfig.t)
    (sg : SecurityGroupConfig.t) (sub : DbSubnetGroupConfig.t)
    (cl : RdsClusterConfig.t) (ci : RdsClusterInstanceConfig.t) : Scope :=
  [ ("caller", DataAwsCallerIdentity);
    ("timestamp", StaticResource);
    ("rds-sg", SecurityGroup sg);
    ("db-subnet-group", DbSubnetGroup sub);
    ("rds-cluster", RdsCluster cl) ] ++
  ((fun i => (instance_id i, RdsClusterInstance ci)) <$>
     seqZ 0 (Js.or_number (RdsModuleConfig.numberOfInstances config) 1)) ++
  [ ("aurora_cluster_endpoint",
     TerraformOutput
       {| TerraformOutputConfig.value := Token "rds-cluster" "endpoint" |}) ].

Definition standalone_children
    (sg : SecurityGroupConfig.t) (sub : DbSubnetGroupConfig.t)
    (db : DbInstanceConfig.t) : Scope :=
  [ ("caller", DataAwsCallerIdentity);
    ("timestamp", StaticResource);
    ("rds-sg", SecurityGroup sg);
    ("db-subnet-group", DbSubnetGroup sub);
    ("rds-instance", DbInstance db);
    ("rds_instance_endpoint",
     TerraformOutput
       {| TerraformOutputConfig.value := Token "rds-instance" "endpoint" |}) ].

(** ** Reading the children back *)

Definition select {A} (f : Resource -> option A) (sc : Scope)
  : list (string * A) :=
  omap (fun c => (fun a => (c.1, a)) <$> f c.2) sc.

Definition as_SecurityGroup (r : Resource) : option SecurityGroupConfig.t :=
  match r with SecurityGroup c => Some c | _ => None end.
Definition as_DbSubnetGroup (r : Resource) : option DbSubnetGroupConfig.t :=
  match r with DbSubnetGroup c => Some c | _ => None end.
Definition as_RdsCluster (r : Resource) : option RdsClusterConfig.t :=
  match r with RdsCluster c => Some c | _ => None end.
Definition as_RdsClusterInstance (r : Resource)
  : option RdsClusterInstanceConfig.t :=
  match r with RdsClusterInstance c => Some c | _ => None end.
Definition as_DbInstance (r : Resource) : option DbInstanceConfig.t :=
  match r with DbInstance c => Some c | _ => None end.
Definition as_TerraformOutput (r : Resource) : option TerraformOutputConfig.t :=
  match r with TerraformOutput c => Some c | _ => None end.

Definition securityGroups : Scope -> _ := select as_SecurityGroup.
Definition dbSubnetGroups : Scope -> _ := select as_DbSubnetGroup.
Definition clusters : Scope -> _ := select as_RdsCluster.
Definition clusterInstances : Scope -> _ := select as_RdsClusterInstance.
Definition dbInstances : Scope -> _ := select as_DbInstance.
Definition outputs : Scope -> _ := select as_TerraformOutput.

(** The tag map a resource was given; data sources and outputs take none. *)
Definition resource_tags (r : Resource) : option Tags :=
  match r with
  | SecurityGroup c => Some (SecurityGroupConfig.tags c)
  | DbSubnetGroup c => Some (DbSubnetGroupConfig.tags c)
  | RdsCluster c => Some (RdsClusterConfig.tags c)
  | RdsClusterInstance c => Some (RdsClusterInstanceConfig.tags c)
  | DbInstance c => Some (DbInstanceConfig.tags c)
  | DataAwsCallerIdentity | StaticResource | TerraformOutput _ => None
  end.

(** ** Sample configurations *)

(** engine="postgres-14", isAurora=true, numberOfInstances=3. *)
Definition scenario_postgres : RdsModuleConfig.t :=
  sample "postgres-14" true None (Some 3) None None.

(** engine="mysql-8.0", isAurora=false, instanceClass="db.t3.small",
    allocatedStorage=20, numberOfInstances=undefined. *)
Definition scenario_mysql : RdsModuleConfig.t :=
  sample "mysql-8.0" false (Some "db.t3.small") None (Some 20) None.

(** A cluster asked for with numberOfInstances=0. *)
Definition zero_instances : RdsModuleConfig.t :=
  sample "aurora-postgresql" true None (Some 0) None None.

(** A cluster asked for with the empty string as instanceClass. *)
Definition empty_class : RdsModuleConfig.t :=
  sample "aurora-mysql" true (Some EmptyString) None None None.

(** A standalone instance asked for without instanceClass. *)
Definition no_class : RdsModuleConfig.t :=
  sample "mysql-8.0" false None None (Some 20) None.

(** ** Comparing configurations, and the references between children *)

(** [{ ...config, allocatedStorage: x }]. *)
Definition with_allocatedStorage (x : option Z) (config : RdsModuleConfig.t)
  : RdsModuleConfig.t := {|
  RdsModuleConfig.username := RdsModuleConfig.username config;
  RdsModuleConfig.password := RdsModuleConfig.password config;
  RdsModuleConfig.maintenanceWindow := RdsModuleConfig.maintenanceWindow config;
  RdsModuleConfig.backupWindow := RdsModuleConfig.backupWindow config;
  RdsModuleConfig.backupRetentionPeriod :=
    RdsModuleConfig.backupRetentionPeriod config;
  RdsModuleConfig.dbName := RdsModuleConfig.dbName config;
  RdsModuleConfig.engine := RdsModuleConfig.engine config;
  RdsModuleConfig.engineVersion := RdsModuleConfig.engineVersion config;
  RdsModuleConfig.instanceClass := RdsModuleConfig.instanceClass config;
  RdsModuleConfig.isAurora := RdsModuleConfig.isAurora config;
  RdsModuleConfig.numberOfInstances := RdsModuleConfig.numberOfInstances config;
  RdsModuleConfig.allocatedStorage := x;
  RdsModuleConfig.serviceName := RdsModuleConfig.serviceName config;
  RdsModuleConfig.env := RdsModuleConfig.env config;
  RdsModuleConfig.tags := RdsModuleConfig.tags config;
  RdsModuleConfig.vpc := RdsModuleConfig.vpc config;
|}.

(** [{ ...config, numberOfInstances: x }]. *)
Definition with_numberOfInstances (x : option Z) (config : RdsModuleConfig.t)
  : RdsModuleConfig.t := {|
  RdsModuleConfig.username := RdsModuleConfig.username config;
  RdsModuleConfig.password := RdsModuleConfig.password config;
  RdsModuleConfig.maintenanceWindow := RdsModuleConfig.maintenanceWindow config;
  RdsModuleConfig.backupWindow := RdsModuleConfig.backupWindow config;
  RdsModuleConfig.backupRetentionPeriod :=
    RdsModuleConfig.backupRetentionPeriod config;
  RdsModuleConfig.dbName := RdsModuleConfig.dbName config;
  RdsModuleConfig.engine := RdsModuleConfig.engine config;
  RdsModuleConfig.engineVersion := RdsModuleConfig.engineVersion config;
  RdsModuleConfig.instanceClass := RdsModuleConfig.instanceClass config;
  RdsModuleConfig.isAurora := RdsModuleConfig.isAurora config;
  RdsModuleConfig.numberOfInstances := x;
  RdsModuleConfig.allocatedStorage := RdsModuleConfig.allocatedStorage config;
  RdsModuleConfig.serviceName := RdsModuleConfig.serviceName config;
  RdsModuleConfig.env := RdsModuleConfig.env config;
  RdsModuleConfig.tags := RdsModuleConfig.tags config;
  RdsModuleConfig.vpc := RdsModuleConfig.vpc config;
|}.

(** The child a value points to, when the value is a token. *)
Definition token_target (v : TfString) : list string :=
  match v with
  | Token id _ => [id]
  | Str _ => []
  end.

Definition tag_targets (t : Tags) : list string :=
  (map_to_list t).*2 ≫= token_target.

(** The children a resource refers to through the tokens in its
    configuration. *)
Definition references (r : Resource) : list string :=
  match r with
  | DataAwsCallerIdentity | StaticResource => []
  | SecurityGroup c => tag_targets (SecurityGroupConfig.tags c)
  | DbSubnetGroup c => tag_targets (DbSubnetGroupConfig.tags c)
  | RdsCluster c =>
      token_target (RdsClusterConfig.dbSubnetGroupName c) ++
      (RdsClusterConfig.vpcSecurityGroupIds c ≫= token_target) ++
      tag_targets (RdsClusterConfig.tags c)
  | RdsClusterInstance c =>
      token_target (RdsClusterInstanceConfig.clusterIdentifier c) ++
      token_target (RdsClusterInstanceConfig.engine c) ++
      token_target (RdsClusterInstanceConfig.dbSubnetGroupName c) ++
      tag_targets (RdsClusterInstanceConfig.tags c)
  | DbInstance c =>
      token_target (DbInstanceConfig.dbSubnetGroupName c) ++
      (DbInstanceConfig.vpcSecurityGroupIds c ≫= token_target) ++
      tag_targets (DbInstanceConfig.tags c)
  | TerraformOutput c => token_target (TerraformOutputConfig.value c)
  end.

(** A cluster asked for with numberOfInstances=-2. *)
Definition negative_instances : RdsModuleConfig.t :=
  sample "aurora-mysql" true None (Some (-2)) None None.

(** A standalone instance with the engine identifier "mysql". *)
Definition short_engine : RdsModuleConfig.t :=
  sample "mysql" false (Some "db.t3.small") None (Some 20) None.

(** The first scenario's service, environment, engine, network and tags,
    with the standalone topology. *)
Definition postgres_standalone : RdsModuleConfig.t :=
  sample "postgres-14" false (Some "db.t3.small") None (Some 20) None.

(** ** Running the monad *)

Lemma bind_run {A B} (m : M A) (k : A -> M B) (sc : Scope) :
  (m ≫= k) sc =
  match m sc with
  | Ok (a, sc') => k a sc'
  | Throw e => Throw e
  end.
Proof. reflexivity. Qed.

Lemma ret_run {A} (a : A) (sc : Scope) : (mret a : M A) sc = Ok (a, sc).
Proof. reflexivity. Qed.

Lemma new_run (id : string) (r : Resource) (sc : Scope) :
  id ∉ sc.*1 -> new id r sc = Ok (id, sc ++ [(id, r)]).
Proof. intros Hfresh. unfold new. destruct (decide (id ∈ sc.*1)); done. Qed.

(** The loop, when every round registers one resource under an id that
    depends injectively on the counter: it never runs out of the fuel the
    constructor gives it and leaves one child per counter value, in order. *)
Lemma for_lt_new_run (idf : Z -> string) (rf : Z -> Resource) (n : Z) :
  (forall j k, idf j = idf k -> j = k) ->
  forall (fuel : nat) (i : Z) (sc : Scope),
    (Z.to_nat (n - i) <= fuel)%nat ->
    (forall j, i <= j < n -> idf j ∉ sc.*1) ->
    for_lt fuel i n (fun j => new (idf j) (rf j);; mret tt) sc =
    Ok (tt, sc ++ ((fun j => (idf j, rf j)) <$> seqZ i (n - i))).
Proof.
  intros Hinj fuel. induction fuel as [|fuel IH]; intros i sc Hfuel Hfresh.
  - cbn [for_lt]. destruct (Z.ltb_spec i n) as [Hlt|Hge]; [exfalso; lia|].
    rewrite ret_run. replace (n - i) with (- (i - n)) by lia.
    destruct (Z.eq_dec i n) as [->|Hne].
    + rewrite Z.sub_diag. cbn. by rewrite app_nil_r.
    + rewrite seqZ_nil by lia. cbn. by rewrite app_nil_r.
  - cbn [for_lt]. destruct (Z.ltb_spec i n) as [Hlt|Hge].
    + rewrite !bind_run, new_run by (apply Hfresh; lia).
      rewrite ret_run, IH.
      * rewrite (seqZ_cons i (n - i)) by lia.
        rewrite fmap_cons, <- app_assoc. cbn [app].
        replace (Z.succ i) with (i + 1) by lia.
        replace (Z.pred (n - i)) with (n - (i + 1)) by lia.
        reflexivity.
      * lia.
      * intros j Hj. rewrite fmap_app, elem_of_app. cbn.
        intros [Hin|Hin]; [by apply (Hfresh j); [lia|]|].
        apply list_elem_of_singleton in Hin. apply Hinj in Hin. lia.
    + rewrite ret_run. rewrite seqZ_nil by lia. cbn. by rewrite app_nil_r.
Qed.

(** ** Facts on the primitives *)

Lemma startsWith_app (p x : string) : Js.startsWith (p +:+ x) p = true.
Proof.
  induction p as [|a p IH]; [done|].
  change (String a p +:+ x) with (String a (p +:+ x)). cbn [Js.startsWith].
  by rewrite Ascii.eqb_refl.
Qed.

Lemma startsWith_spec (s p : string) :
  Js.startsWith s p = true <-> exists x, s = p +:+ x.
Proof.
  split.
  - revert s. induction p as [|a p IH]; intros s Hs.
    + by exists s.
    + destruct s as [|b s]; [done|]. cbn [Js.startsWith] in Hs.
      destruct (Ascii.eqb_spec a b) as [->|]; [|done].
      destruct (IH s Hs) as [x ->]. by exists x.
  - intros [x ->]. apply startsWith_app.
Qed.

(** [includes] decides the occurrence of [p] as a contiguous part of [s]. *)
Lemma includes_spec (s p : string) :
  Js.includes s p = true <-> exists pre post, s = pre +:+ p +:+ post.
Proof.
  split.
  - induction s as [|b s IH]; cbn [Js.includes]; intros Hs.
    + rewrite orb_false_r in Hs. apply startsWith_spec in Hs as [x Hx].
      by exists EmptyString, x.
    + apply orb_true_iff in Hs as [Hs|Hs].
      * apply startsWith_spec in Hs as [x Hx]. by exists EmptyString, x.
      * destruct (IH Hs) as (pre & post & ->). by exists (String b pre), post.
  - intros (pre & post & ->). induction pre as [|b pre IH].
    + change (EmptyString +:+ p +:+ post) with (p +:+ post).
      destruct (p +:+ post) eqn:E; cbn [Js.includes]; rewrite <- E;
        by rewrite startsWith_app.
    + change (String b pre +:+ p +:+ post) with (String b (pre +:+ p +:+ post)).
      cbn [Js.includes]. rewrite IH. apply orb_true_r.
Qed.

Lemma instance_id_inj (j k : Z) : instance_id j = instance_id k -> j = k.
Proof.
  unfold instance_id, Js.number_to_string. intros H.
  apply (inj (String.app _)) in H. by apply (inj pretty) in H.
Qed.

Lemma instance_id_prefix (i : Z) :
  Js.startsWith (instance_id i) "rds-cluster-instance-" = true.
Proof. apply startsWith_app. Qed.

(** The ids of the loop differ from every other id the constructor uses. *)
Lemma instance_id_fresh (i : Z) (ids : list string) :
  forallb (fun id => negb (Js.startsWith id "rds-cluster-instance-")) ids = true ->
  instance_id i ∉ ids.
Proof.
  intros Hall Hin. rewrite forallb_forall in Hall.
  apply list_elem_of_In, Hall in Hin. by rewrite instance_id_prefix in Hin.
Qed.

Lemma fixed_id_fresh (id : string) (sc : Scope) (f : Z -> Resource) (l : list Z) :
  Js.startsWith id "rds-cluster-instance-" = false ->
  id ∉ sc.*1 ->
  id ∉ (sc ++ ((fun j => (instance_id j, f j)) <$> l)).*1.
Proof.
  intros Hid Hsc. rewrite fmap_app, elem_of_app. intros [Hin|Hin]; [done|].
  rewrite <- list_fmap_compose in Hin. apply list_elem_of_fmap in Hin as (j & -> & _).
  pose proof (instance_id_prefix j) as Hj.
  change (Js.startsWith (instance_id j) "rds-cluster-instance-" = false) in Hid.
  congruence.
Qed.

Ltac fresh_id :=
  first
    [ apply instance_id_fresh; vm_compute; reflexivity
    | apply fixed_id_fresh; [vm_compute; reflexivity|]; fresh_id
    | cbn [fmap list_fmap app fst]; compute_done ].

Ltac run_new :=
  rewrite bind_run, new_run by fresh_id; cbv beta iota.


(** The clustered branch: the constructor returns, and its children are the
    four common resources, the cluster, one instance per loop round and the
    endpoint output. *)
Lemma aurora_run (config : RdsModuleConfig.t) :
  RdsModuleConfig.isAurora config = true ->
  exists sg sub cl ci,
    new_RdsModule config =
    Ok ({| RdsModule.rdsEndpoint := Token "rds-cluster" "endpoint";
           RdsModule.username := RdsModuleConfig.username config;
           RdsModule.password := RdsModuleConfig.password config;
           RdsModule.securityGroup := "rds-sg" |},
        aurora_children config sg sub cl ci) /\
    SecurityGroup_ok config sg /\ DbSubnetGroup_ok config sub /\
    RdsCluster_ok config cl /\ RdsClusterInstance_ok config ci.
Proof.
  intros Hflag. unfold new_RdsModule, constructor. cbv zeta.
  do 4 run_new. rewrite bind_run, Hflag.
  run_new. cbn [app].
  rewrite bind_run.
  rewrite (for_lt_new_run instance_id (fun _ => RdsClusterInstance _)).
  2: exact instance_id_inj. 2: lia. 2: intros j _; fresh_id.
  cbv beta iota. rewrite Z.sub_0_r.
  run_new. rewrite ret_run. cbv beta iota. rewrite ret_run.
  rewrite <- app_assoc.
  eexists _, _, _, _. split; [reflexivity|].
  repeat split.
Qed.

(** The standalone branch: the constructor returns, and its children are
    the four common resources, the instance and the endpoint output. *)
Lemma standalone_run (config : RdsModuleConfig.t) :
  RdsModuleConfig.isAurora config = false ->
  exists sg sub db,
    new_RdsModule config =
    Ok ({| RdsModule.rdsEndpoint := Token "rds-instance" "endpoint";
           RdsModule.username := RdsModuleConfig.username config;
           RdsModule.password := RdsModuleConfig.password config;
           RdsModule.securityGroup := "rds-sg" |},
        standalone_children sg sub db) /\
    SecurityGroup_ok config sg /\ DbSubnetGroup_ok config sub /\
    DbInstance_ok config db.
Proof.
  intros Hflag. unfold new_RdsModule, constructor. cbv zeta.
  do 4 run_new. rewrite bind_run, Hflag.
  do 2 run_new. rewrite ret_run. cbv beta iota. rewrite ret_run.
  cbn [app].
  eexists _, _, _. split; [reflexivity|].
  repeat split.
Qed.

Lemma select_app {A} (f : Resource -> option A) (sc1 sc2 : Scope) :
  select f (sc1 ++ sc2) = select f sc1 ++ select f sc2.
Proof. apply omap_app. Qed.

Lemma select_fmap {A B} (f : Resource -> option A) (idf : B -> string)
    (r : Resource) (l : list B) :
  select f ((fun i => (idf i, r)) <$> l) =
  match f r with
  | Some a => (fun i => (idf i, a)) <$> l
  | None => []
  end.
Proof.
  unfold select. destruct (f r) as [a|] eqn:E.
  - induction l as [|i l IH]; [done|]. csimpl. by rewrite E, IH.
  - induction l as [|i l IH]; [done|]. csimpl. by rewrite E.
Qed.

Section Children.
Context (config : RdsModuleConfig.t).
Context (sg : SecurityGroupConfig.t) (sub : DbSubnetGroupConfig.t).
Context (cl : RdsClusterConfig.t) (ci : RdsClusterInstanceConfig.t).
Context (db : DbInstanceConfig.t).

Let numInstances : Z :=
  Js.or_number (RdsModuleConfig.numberOfInstances config) 1.

Lemma aurora_clusterInstances :
  clusterInstances (aurora_children config sg sub cl ci) =
  (fun i => (instance_id i, ci)) <$> seqZ 0 numInstances.
Proof.
  unfold clusterInstances, aurora_children.
  rewrite !select_app, select_fmap. cbn. by rewrite app_nil_r.
Qed.

Lemma aurora_clusters :
  clusters (aurora_children config sg sub cl ci) = [("rds-cluster", cl)].
Proof.
  unfold clusters, aurora_children. by rewrite !select_app, select_fmap.
Qed.

Lemma aurora_dbInstances :
  dbInstances (aurora_children config sg sub cl ci) = [].
Proof.
  unfold dbInstances, aurora_children. by rewrite !select_app, select_fmap.
Qed.

Lemma aurora_securityGroups :
  securityGroups (aurora_children config sg sub cl ci) = [("rds-sg", sg)].
Proof.
  unfold securityGroups, aurora_children.
  by rewrite !select_app, select_fmap.
Qed.

Lemma aurora_outputs :
  outputs (aurora_children config sg sub cl ci) =
  [("aurora_cluster_endpoint",
    {| TerraformOutputConfig.value := Token "rds-cluster" "endpoint" |})].
Proof.
  unfold outputs, aurora_children. by rewrite !select_app, select_fmap.
Qed.

Lemma aurora_elem (id : string) (r : Resource) :
  (id, r) ∈ aurora_children config sg sub cl ci ->
  r = DataAwsCallerIdentity \/ r = StaticResource \/ r = SecurityGroup sg \/
  r = DbSubnetGroup sub \/ r = RdsCluster cl \/ r = RdsClusterInstance ci \/
  exists c, r = TerraformOutput c.
Proof.
  unfold aurora_children. rewrite !elem_of_app, list_elem_of_fmap.
  rewrite !elem_of_cons, elem_of_nil.
  intros [H|[(i & H & _)|H]];
    repeat (destruct H as [H|H]); try (by destruct H); simplify_eq;
    eauto 10.
Qed.

Lemma standalone_elem (id : string) (r : Resource) :
  (id, r) ∈ standalone_children sg sub db ->
  r = DataAwsCallerIdentity \/ r = StaticResource \/ r = SecurityGroup sg \/
  r = DbSubnetGroup sub \/ r = DbInstance db \/
  exists c, r = TerraformOutput c.
Proof.
  unfold standalone_children. rewrite !elem_of_cons, elem_of_nil.
  intros H.
  repeat (destruct H as [H|H]); try (by destruct H); simplify_eq;
    eauto 10.
Qed.

End Children.

Lemma elem_of_select {A} (f : Resource -> option A) (sc : Scope)
    (id : string) (a : A) :
  (id, a) ∈ select f sc <-> exists r, (id, r) ∈ sc /\ f r = Some a.
Proof.
  unfold select. rewrite list_elem_of_omap. split.
  - intros ([id' r] & Hin & Hf). cbn in Hf.
    destruct (f r) as [a'|] eqn:E; simplify_eq/=. by exists r.
  - intros (r & Hin & Hf). exists (id, r). cbn. by rewrite Hf.
Qed.

Section StandaloneChildren.
Context (sg : SecurityGroupConfig.t) (sub : DbSubnetGroupConfig.t).
Context (db : DbInstanceConfig.t).

Lemma standalone_dbInstances :
  dbInstances (standalone_children sg sub db) = [("rds-instance", db)].
Proof. reflexivity. Qed.

Lemma standalone_clusters : clusters (standalone_children sg sub db) = [].
Proof. reflexivity. Qed.

Lemma standalone_clusterInstances :
  clusterInstances (standalone_children sg sub db) = [].
Proof. reflexivity. Qed.

Lemma standalone_securityGroups :
  securityGroups (standalone_children sg sub db) = [("rds-sg", sg)].
Proof. reflexivity. Qed.

Lemma standalone_outputs :
  outputs (standalone_children sg sub db) =
  [("rds_instance_endpoint",
    {| TerraformOutputConfig.value := Token "rds-instance" "endpoint" |})].
Proof. reflexivity. Qed.
End StandaloneChildren.

(** Construction is total: whatever the configuration, the constructor
    returns, the security group is the child ["rds-sg"] and every tagged
    child carries [final_tags]. *)
Lemma common_run (config : RdsModuleConfig.t) :
  exists m sc sg,
    new_RdsModule config = Ok (m, sc) /\
    securityGroups sc = [("rds-sg", sg)] /\
    SecurityGroup_ok config sg /\
    (forall id r t,
        (id, r) ∈ sc -> resource_tags r = Some t -> t = final_tags config).
Proof.
  destruct (RdsModuleConfig.isAurora config) eqn:Hflag.
  - destruct (aurora_run config Hflag)
      as (sg & sub & cl & ci & Hrun & Hsg & Hsub & Hcl & Hci).
    eexists _, _, sg. split; [exact Hrun|].
    split; [apply aurora_securityGroups|]. split; [done|].
    intros id r t Hin Ht. apply aurora_elem in Hin.
    destruct Hsg, Hsub, Hcl, Hci.
    destruct Hin as [->|[->|[->|[->|[->|[->|[c ->]]]]]]];
      cbn in Ht; congruence.
  - destruct (standalone_run config Hflag)
      as (sg & sub & db & Hrun & Hsg & Hsub & Hdb).
    eexists _, _, sg. split; [exact Hrun|].
    split; [apply standalone_securityGroups|]. split; [done|].
    intros id r t Hin Ht. apply standalone_elem in Hin.
    destruct Hsg, Hsub, Hdb.
    destruct Hin as [->|[->|[->|[->|[->|[c ->]]]]]];
      cbn in Ht; congruence.
Qed.

Lemma final_tags_lookup (config : RdsModuleConfig.t) (k : string) :
  final_tags config !! k =
  match default ∅ (RdsModuleConfig.tags config) !! k with
  | Some v => Some (Str v)
  | None =>
      defaultTags (RdsModuleConfig.serviceName config)
        (RdsModuleConfig.env config) "caller" "timestamp" !! k
  end.
Proof.
  unfold final_tags, spread. rewrite lookup_union, lookup_fmap.
  destruct (default ∅ (RdsModuleConfig.tags config) !! k) as [v|]; cbn.
  - by rewrite union_Some_l.
  - by rewrite (left_id None _).
Qed.

(** ** The claims *)

(** C1, as stated, fails: with the clustered flag set and an instance count
    of 0 supplied, [numberOfInstances || 1] is 1 and one cluster instance is
    emitted, not 0. *)
Lemma C1_zero_count_gives_one_instance :
  RdsModuleConfig.isAurora zero_instances = true /\
  RdsModuleConfig.numberOfInstances zero_instances = Some 0 /\
  exists m sc ci,
    new_RdsModule zero_instances = Ok (m, sc) /\
    clusterInstances sc = [("rds-cluster-instance-0", ci)] /\
    length (clusterInstances sc) <> Z.to_nat 0.
Proof.
  split; [reflexivity|]. split; [reflexivity|].
  eexists _, _, _. split; [vm_compute; reflexivity|].
  split; [vm_compute; reflexivity|]. vm_compute. discriminate.
Qed.

(** C1, amended: with the clustered flag set, exactly one cluster is emitted
    and the number of cluster instances is the supplied count K for every
    K >= 1, and 1 when no count is supplied or the supplied count is 0; each
    instance references that one cluster. *)
Theorem C1_cluster_instance_count (config : RdsModuleConfig.t) :
  RdsModuleConfig.isAurora config = true ->
  exists m sc cid cl,
    new_RdsModule config = Ok (m, sc) /\
    clusters sc = [(cid, cl)] /\
    (forall K, RdsModuleConfig.numberOfInstances config = Some K -> 1 <= K ->
               Z.of_nat (length (clusterInstances sc)) = K) /\
    (RdsModuleConfig.numberOfInstances config = Some 0 ->
     length (clusterInstances sc) = 1%nat) /\
    (RdsModuleConfig.numberOfInstances config = None ->
     length (clusterInstances sc) = 1%nat) /\
    (forall id ci, (id, ci) ∈ clusterInstances sc ->
                   RdsClusterInstanceConfig.clusterIdentifier ci = Token cid "id").
Proof.
  intros Hflag.
  destruct (aurora_run config Hflag)
    as (sg & sub & cl & ci & Hrun & _ & _ & _ & Hci).
  eexists _, _, "rds-cluster", cl. split; [exact Hrun|].
  split; [apply aurora_clusters|].
  rewrite aurora_clusterInstances, length_fmap, length_seqZ.
  repeat split.
  - intros K -> HK. unfold Js.or_number.
    destruct (Z.eqb_spec K 0); lia.
  - by intros ->.
  - by intros ->.
  - intros id ci' Hin. apply list_elem_of_fmap in Hin as (i & Heq & _).
    simplify_eq. apply Hci.
Qed.

Lemma C1_cluster_instance_count_witness :
  RdsModuleConfig.isAurora scenario_postgres = true /\
  exists m sc,
    new_RdsModule scenario_postgres = Ok (m, sc) /\
    Z.of_nat (length (clusterInstances sc)) = 3.
Proof.
  split; [reflexivity|].
  destruct (C1_cluster_instance_count scenario_postgres eq_refl)
    as (m & sc & cid & cl & Hrun & _ & HK & _).
  exists m, sc. split; [exact Hrun|]. apply HK; [reflexivity|lia].
Defined.

(** C2: with the clustered flag unset, exactly one standalone database
    instance is emitted (and no cluster, no cluster instance), and its
    multiAz field is true if and only if an instance count is supplied and
    is greater than 1. *)
Theorem C2_standalone_instance_multiAz (config : RdsModuleConfig.t) :
  RdsModuleConfig.isAurora config = false ->
  exists m sc id db,
    new_RdsModule config = Ok (m, sc) /\
    dbInstances sc = [(id, db)] /\
    clusters sc = [] /\
    clusterInstances sc = [] /\
    (DbInstanceConfig.multiAz db = true <->
     exists K, RdsModuleConfig.numberOfInstances config = Some K /\ 1 < K).
Proof.
  intros Hflag.
  destruct (standalone_run config Hflag)
    as (sg & sub & db & Hrun & _ & _ & Hdb).
  eexists _, _, "rds-instance", db. split; [exact Hrun|].
  do 3 (split; [reflexivity|]).
  rewrite (db_multiAz _ _ Hdb). unfold Js.defined_and_gt.
  destruct (RdsModuleConfig.numberOfInstances config) as [K|].
  - rewrite Z.ltb_lt. split; [by exists K|]. by intros (K' & [= <-] & HK).
  - split; [done|]. by intros (K & [=] & _).
Qed.

Lemma C2_standalone_instance_multiAz_witness :
  RdsModuleConfig.isAurora scenario_mysql = false /\
  exists m sc id db,
    new_RdsModule scenario_mysql = Ok (m, sc) /\
    dbInstances sc = [(id, db)] /\
    DbInstanceConfig.multiAz db <> true.
Proof.
  split; [reflexivity|].
  destruct (C2_standalone_instance_multiAz scenario_mysql eq_refl)
    as (m & sc & id & db & Hrun & Hdb & _ & _ & Hmaz).
  exists m, sc, id, db. split; [exact Hrun|]. split; [exact Hdb|].
  intros Htrue. apply Hmaz in Htrue as (K & HK & _). discriminate HK.
Defined.

(** C3: for every configuration, the security group has one ingress rule,
    whose fromPort and toPort are both 5432 when the engine identifier
    contains "postgres", and both 3306 otherwise. *)
Theorem C3_ingress_port (config : RdsModuleConfig.t) :
  exists m sc id sg rule,
    new_RdsModule config = Ok (m, sc) /\
    securityGroups sc = [(id, sg)] /\
    SecurityGroupConfig.ingress sg = [rule] /\
    ((exists pre post,
         RdsModuleConfig.engine config = pre +:+ "postgres" +:+ post) ->
     SecurityGroupRule.fromPort rule = 5432 /\
     SecurityGroupRule.toPort rule = 5432) /\
    (~ (exists pre post,
           RdsModuleConfig.engine config = pre +:+ "postgres" +:+ post) ->
     SecurityGroupRule.fromPort rule = 3306 /\
     SecurityGroupRule.toPort rule = 3306).
Proof.
  destruct (common_run config) as (m & sc & sg & Hrun & Hsgs & Hsg & _).
  destruct Hsg as [Hfrom Hto _].
  destruct (SecurityGroupConfig.ingress sg) as [|rule [|rule' rules]] eqn:E;
    [discriminate Hfrom| |discriminate Hfrom].
  injection Hfrom as Hfrom. injection Hto as Hto.
  exists m, sc, "rds-sg", sg, rule. split; [exact Hrun|].
  split; [exact Hsgs|]. split; [exact E|].
  rewrite Hfrom, Hto, <- includes_spec. unfold ingress_port.
  destruct (Js.includes (RdsModuleConfig.engine config) "postgres");
    split; intros H; try done; by destruct H.
Qed.

(** C4, as stated, fails: with the clustered flag unset and no instanceClass,
    the constructor returns without an error and the standalone instance is
    among the children, its instanceClass absent. *)
Lemma C4_missing_class_still_builds :
  RdsModuleConfig.isAurora no_class = false /\
  RdsModuleConfig.instanceClass no_class = None /\
  exists m sc db,
    new_RdsModule no_class = Ok (m, sc) /\
    dbInstances sc = [("rds-instance", db)] /\
    DbInstanceConfig.instanceClass db = None.
Proof.
  split; [reflexivity|]. split; [reflexivity|].
  eexists _, _, _. split; [vm_compute; reflexivity|].
  split; vm_compute; reflexivity.
Qed.

(** C4, amended: with the clustered flag unset and instanceClass omitted, the
    constructor performs no check of its own: it returns, and it emits the one
    standalone instance with the sizing class left absent. *)
Theorem C4_missing_class_is_passed_on (config : RdsModuleConfig.t) :
  RdsModuleConfig.isAurora config = false ->
  RdsModuleConfig.instanceClass config = None ->
  exists m sc id db,
    new_RdsModule config = Ok (m, sc) /\
    dbInstances sc = [(id, db)] /\
    DbInstanceConfig.instanceClass db = None.
Proof.
  intros Hflag Hclass.
  destruct (standalone_run config Hflag)
    as (sg & sub & db & Hrun & _ & _ & Hdb).
  eexists _, _, "rds-instance", db. split; [exact Hrun|].
  split; [reflexivity|]. by rewrite (db_instanceClass _ _ Hdb).
Qed.

Lemma C4_missing_class_is_passed_on_witness :
  RdsModuleConfig.isAurora no_class = false /\
  RdsModuleConfig.instanceClass no_class = None /\
  exists m sc id db,
    new_RdsModule no_class = Ok (m, sc) /\
    dbInstances sc = [(id, db)] /\
    DbInstanceConfig.instanceClass db = None.
Proof.
  split; [reflexivity|]. split; [reflexivity|].
  exact (C4_missing_class_is_passed_on no_class eq_refl eq_refl).
Defined.

(** C5: for every configuration, the tag map given to the security group is
    the merge of the default tags with the caller's tags: a key of both maps
    has the caller's value, a key of only one map has the value it has there,
    and a key of neither is absent. *)
Theorem C5_tag_merge (config : RdsModuleConfig.t) :
  let defaults :=
    defaultTags (RdsModuleConfig.serviceName config)
      (RdsModuleConfig.env config) "caller" "timestamp" in
  let supplied := default ∅ (RdsModuleConfig.tags config) in
  exists m sc id sg,
    new_RdsModule config = Ok (m, sc) /\
    securityGroups sc = [(id, sg)] /\
    forall k,
      (forall v d, supplied !! k = Some v -> defaults !! k = Some d ->
                   SecurityGroupConfig.tags sg !! k = Some (Str v)) /\
      (forall v, supplied !! k = Some v -> defaults !! k = None ->
                 SecurityGroupConfig.tags sg !! k = Some (Str v)) /\
      (forall d, supplied !! k = None -> defaults !! k = Some d ->
                 SecurityGroupConfig.tags sg !! k = Some d) /\
      (supplied !! k = None -> defaults !! k = None ->
       SecurityGroupConfig.tags sg !! k = None).
Proof.
  intros defaults supplied.
  destruct (common_run config) as (m & sc & sg & Hrun & Hsgs & Hsg & _).
  exists m, sc, "rds-sg", sg. split; [exact Hrun|]. split; [exact Hsgs|].
  intros k. rewrite (sg_tags _ _ Hsg), final_tags_lookup.
  fold supplied defaults.
  repeat split.
  - by intros v d -> _.
  - by intros v -> _.
  - by intros d -> ->.
  - by intros -> ->.
Qed.

(** C6: for every configuration, exactly one database resource is emitted
    (the cluster when the clustered flag is set, the standalone instance
    otherwise), and it has storage type gp3, storage encryption on and the
    final snapshot skipped. *)
Theorem C6_storage_defaults (config : RdsModuleConfig.t) :
  exists m sc,
    new_RdsModule config = Ok (m, sc) /\
    length (clusters sc) =
      (if RdsModuleConfig.isAurora config then 1 else 0)%nat /\
    length (dbInstances sc) =
      (if RdsModuleConfig.isAurora config then 0 else 1)%nat /\
    (forall id cl, (id, cl) ∈ clusters sc ->
       RdsClusterConfig.storageType cl = "gp3" /\
       RdsClusterConfig.storageEncrypted cl = true /\
       RdsClusterConfig.skipFinalSnapshot cl = true) /\
    (forall id db, (id, db) ∈ dbInstances sc ->
       DbInstanceConfig.storageType db = "gp3" /\
       DbInstanceConfig.storageEncrypted db = true /\
       DbInstanceConfig.skipFinalSnapshot db = true).
Proof.
  destruct (RdsModuleConfig.isAurora config) eqn:Hflag.
  - destruct (aurora_run config Hflag)
      as (sg & sub & cl & ci & Hrun & _ & _ & Hcl & _).
    eexists _, _. split; [exact Hrun|].
    rewrite aurora_clusters, aurora_dbInstances.
    do 2 (split; [reflexivity|]). split.
    + intros id cl' Hin. apply list_elem_of_singleton in Hin. simplify_eq.
      by destruct Hcl.
    + intros id db Hin. by apply elem_of_nil in Hin.
  - destruct (standalone_run config Hflag)
      as (sg & sub & db & Hrun & _ & _ & Hdb).
    eexists _, _. split; [exact Hrun|].
    rewrite standalone_clusters, standalone_dbInstances.
    do 2 (split; [reflexivity|]). split.
    + intros id cl Hin. by apply elem_of_nil in Hin.
    + intros id db' Hin. apply list_elem_of_singleton in Hin. simplify_eq.
      by destruct Hdb.
Qed.

(** C7: for every configuration, the module's username and password are the
    configured ones, and its endpoint (also the value of the one Terraform
    output) is the endpoint attribute of the cluster when the clustered flag
    is set and of the standalone instance otherwise. *)
Theorem C7_outputs (config : RdsModuleConfig.t) :
  exists m sc id out,
    new_RdsModule config = Ok (m, sc) /\
    RdsModule.username m = RdsModuleConfig.username config /\
    RdsModule.password m = RdsModuleConfig.password config /\
    outputs sc = [(id, out)] /\
    TerraformOutputConfig.value out = RdsModule.rdsEndpoint m /\
    if RdsModuleConfig.isAurora config
    then exists cid cl,
        clusters sc = [(cid, cl)] /\
        RdsModule.rdsEndpoint m = Token cid "endpoint"
    else exists did db,
        dbInstances sc = [(did, db)] /\
        RdsModule.rdsEndpoint m = Token did "endpoint".
Proof.
  destruct (RdsModuleConfig.isAurora config) eqn:Hflag.
  - destruct (aurora_run config Hflag)
      as (sg & sub & cl & ci & Hrun & _).
    eexists _, _, _, _. split; [exact Hrun|].
    do 2 (split; [reflexivity|]). split; [apply aurora_outputs|].
    split; [reflexivity|].
    eexists _, _. split; [apply aurora_clusters|reflexivity].
  - destruct (standalone_run config Hflag)
      as (sg & sub & db & Hrun & _).
    eexists _, _, _, _. split; [exact Hrun|].
    do 2 (split; [reflexivity|]). split; [apply standalone_outputs|].
    split; [reflexivity|].
    eexists _, _. split; [apply standalone_dbInstances|reflexivity].
Qed.

(** C8, as stated, fails: with the clustered flag set and the empty string
    supplied as instanceClass, [instanceClass || "db.t4g.medium"] is the
    default and the emitted instance has it, not the supplied value. *)
Lemma C8_empty_class_gives_default :
  RdsModuleConfig.isAurora empty_class = true /\
  RdsModuleConfig.instanceClass empty_class = Some EmptyString /\
  exists m sc ci,
    new_RdsModule empty_class = Ok (m, sc) /\
    clusterInstances sc = [("rds-cluster-instance-0", ci)] /\
    RdsClusterInstanceConfig.instanceClass ci = "db.t4g.medium" /\
    RdsClusterInstanceConfig.instanceClass ci <> EmptyString.
Proof.
  split; [reflexivity|]. split; [reflexivity|].
  eexists _, _, _. split; [vm_compute; reflexivity|].
  split; [vm_compute; reflexivity|]. split; [reflexivity|discriminate].
Qed.

(** C8, amended: with the clustered flag set, every emitted cluster instance
    has the configured sizing class when a non-empty one is supplied, and
    db.t4g.medium when none, or the empty string, is supplied. *)
Theorem C8_cluster_instance_class (config : RdsModuleConfig.t) :
  RdsModuleConfig.isAurora config = true ->
  exists m sc,
    new_RdsModule config = Ok (m, sc) /\
    forall id ci, (id, ci) ∈ clusterInstances sc ->
      (forall s, RdsModuleConfig.instanceClass config = Some s -> s <> EmptyString ->
                 RdsClusterInstanceConfig.instanceClass ci = s) /\
      (RdsModuleConfig.instanceClass config = None ->
       RdsClusterInstanceConfig.instanceClass ci = "db.t4g.medium") /\
      (RdsModuleConfig.instanceClass config = Some EmptyString ->
       RdsClusterInstanceConfig.instanceClass ci = "db.t4g.medium").
Proof.
  intros Hflag.
  destruct (aurora_run config Hflag)
    as (sg & sub & cl & ci & Hrun & _ & _ & _ & Hci).
  eexists _, _. split; [exact Hrun|].
  intros id ci' Hin. rewrite aurora_clusterInstances in Hin.
  apply list_elem_of_fmap in Hin as (i & Heq & _). simplify_eq.
  rewrite (ci_instanceClass _ _ Hci).
  repeat split.
  - intros s -> Hs. by destruct s.
  - by intros ->.
  - by intros ->.
Qed.

Lemma C8_cluster_instance_class_witness :
  RdsModuleConfig.isAurora scenario_postgres = true /\
  exists m sc,
    new_RdsModule scenario_postgres = Ok (m, sc) /\
    forall id ci, (id, ci) ∈ clusterInstances sc ->
      RdsClusterInstanceConfig.instanceClass ci = "db.t4g.medium".
Proof.
  split; [reflexivity|].
  destruct (C8_cluster_instance_class scenario_postgres eq_refl)
    as (m & sc & Hrun & Hall).
  exists m, sc. split; [exact Hrun|].
  intros id ci Hin. destruct (Hall id ci Hin) as (_ & Hnone & _).
  apply Hnone. reflexivity.
Defined.

(** C9: for every configuration, every emitted resource that carries tags
    carries the same merged tag map: the security group, the subnet group,
    the cluster, every cluster instance and the standalone instance all have
    [final_tags], and the security group (always emitted) is one of them. *)
Theorem C9_same_tags_everywhere (config : RdsModuleConfig.t) :
  exists m sc,
    new_RdsModule config = Ok (m, sc) /\
    (exists id sg, (id, sg) ∈ securityGroups sc) /\
    (forall id r t, (id, r) ∈ sc -> resource_tags r = Some t ->
                    t = final_tags config) /\
    (forall id c, (id, c) ∈ securityGroups sc ->
                  SecurityGroupConfig.tags c = final_tags config) /\
    (forall id c, (id, c) ∈ dbSubnetGroups sc ->
                  DbSubnetGroupConfig.tags c = final_tags config) /\
    (forall id c, (id, c) ∈ clusters sc ->
                  RdsClusterConfig.tags c = final_tags config) /\
    (forall id c, (id, c) ∈ clusterInstances sc ->
                  RdsClusterInstanceConfig.tags c = final_tags config) /\
    (forall id c, (id, c) ∈ dbInstances sc ->
                  DbInstanceConfig.tags c = final_tags config).
Proof.
  destruct (common_run config) as (m & sc & sg & Hrun & Hsgs & _ & Htags).
  exists m, sc. split; [exact Hrun|].
  split; [exists "rds-sg", sg; rewrite Hsgs; apply list_elem_of_here|].
  split; [exact Htags|].
  repeat split; intros id c Hin;
    apply elem_of_select in Hin as (r & Hin & Hr);
    destruct r; simplify_eq/=; by apply (Htags id _ _ Hin).
Qed.

(** C10: with the clustered flag set, every emitted cluster instance refers
    to the id attribute of the one cluster, takes its engine from the engine
    attribute of that cluster, and has the subnet group name the cluster has;
    any two emitted instances have the same configuration, and their
    construct ids are the loop indices, pairwise distinct. *)
Theorem C10_cluster_instances_uniform (config : RdsModuleConfig.t) :
  RdsModuleConfig.isAurora config = true ->
  exists m sc cid cl,
    new_RdsModule config = Ok (m, sc) /\
    clusters sc = [(cid, cl)] /\
    (forall id ci, (id, ci) ∈ clusterInstances sc ->
       RdsClusterInstanceConfig.clusterIdentifier ci = Token cid "id" /\
       RdsClusterInstanceConfig.engine ci = Token cid "engine" /\
       RdsClusterInstanceConfig.dbSubnetGroupName ci =
         RdsClusterConfig.dbSubnetGroupName cl) /\
    (forall id1 ci1 id2 ci2,
       (id1, ci1) ∈ clusterInstances sc -> (id2, ci2) ∈ clusterInstances sc ->
       ci1 = ci2) /\
    (clusterInstances sc).*1 =
      instance_id <$>
        seqZ 0 (Js.or_number (RdsModuleConfig.numberOfInstances config) 1) /\
    NoDup (clusterInstances sc).*1.
Proof.
  intros Hflag.
  destruct (aurora_run config Hflag)
    as (sg & sub & cl & ci & Hrun & _ & _ & Hcl & Hci).
  eexists _, _, "rds-cluster", cl. split; [exact Hrun|].
  split; [apply aurora_clusters|].
  rewrite aurora_clusterInstances.
  assert (((fun i => (instance_id i, ci)) <$>
             seqZ 0 (Js.or_number (RdsModuleConfig.numberOfInstances config) 1)).*1
          = instance_id <$>
              seqZ 0 (Js.or_number (RdsModuleConfig.numberOfInstances config) 1))
    as Hids by (by rewrite <- list_fmap_compose).
  repeat split.
  - apply list_elem_of_fmap in H as (i & Heq & _). simplify_eq. apply Hci.
  - apply list_elem_of_fmap in H as (i & Heq & _). simplify_eq. apply Hci.
  - apply list_elem_of_fmap in H as (i & Heq & _). simplify_eq.
    by rewrite (ci_dbSubnetGroupName _ _ Hci), (cl_dbSubnetGroupName _ _ Hcl).
  - intros id1 ci1 id2 ci2 H1 H2.
    apply list_elem_of_fmap in H1 as (i1 & Heq1 & _).
    apply list_elem_of_fmap in H2 as (i2 & Heq2 & _). by simplify_eq.
  - exact Hids.
  - rewrite Hids. apply NoDup_fmap_2; [|apply NoDup_seqZ].
    intros j k. apply instance_id_inj.
Qed.

Lemma C10_cluster_instances_uniform_witness :
  RdsModuleConfig.isAurora scenario_postgres = true /\
  exists m sc,
    new_RdsModule scenario_postgres = Ok (m, sc) /\
    (clusterInstances sc).*1 =
      ["rds-cluster-instance-0"; "rds-cluster-instance-1";
       "rds-cluster-instance-2"] /\
    forall id ci, (id, ci) ∈ clusterInstances sc ->
      RdsClusterInstanceConfig.clusterIdentifier ci = Token "rds-cluster" "id".
Proof.
  split; [reflexivity|].
  destruct (C10_cluster_instances_uniform scenario_postgres eq_refl)
    as (m & sc & cid & cl & Hrun & Hcl & Hall & _ & Hids & _).
  exists m, sc. split; [exact Hrun|]. split; [exact Hids|].
  intros id ci Hin. destruct (Hall id ci Hin) as (Hid & _).
  rewrite Hid. f_equal.
  destruct (aurora_run scenario_postgres eq_refl)
    as (sg & sub & cl' & ci' & Hrun' & _).
  rewrite Hrun in Hrun'. injection Hrun' as _ ->.
  rewrite aurora_clusters in Hcl. by injection Hcl as -> _.
Defined.

(** ** The scenarios of the specification, run *)

Example scenario_postgres_run :
  exists m sc,
    new_RdsModule scenario_postgres = Ok (m, sc) /\
    sc.*1 = ["caller"; "timestamp"; "rds-sg"; "db-subnet-group"; "rds-cluster";
             "rds-cluster-instance-0"; "rds-cluster-instance-1";
             "rds-cluster-instance-2"; "aurora_cluster_endpoint"] /\
    (SecurityGroupRule.fromPort <$>
       (securityGroups sc ≫= fun c => SecurityGroupConfig.ingress c.2)) = [5432] /\
    RdsModule.rdsEndpoint m = Token "rds-cluster" "endpoint".
Proof.
  eexists _, _. split; [vm_compute; reflexivity|].
  repeat split; vm_compute; reflexivity.
Qed.

Example scenario_mysql_run :
  exists m sc,
    new_RdsModule scenario_mysql = Ok (m, sc) /\
    sc.*1 = ["caller"; "timestamp"; "rds-sg"; "db-subnet-group"; "rds-instance";
             "rds_instance_endpoint"] /\
    (SecurityGroupRule.fromPort <$>
       (securityGroups sc ≫= fun c => SecurityGroupConfig.ingress c.2)) = [3306] /\
    (DbInstanceConfig.multiAz <$> (dbInstances sc).*2) = [false].
Proof.
  eexists _, _. split; [vm_compute; reflexivity|].
  repeat split; vm_compute; reflexivity.
Qed.

(** ** Further properties of the constructor *)

(** Symbolic runs of the two branches, for a goal
    [new_RdsModule config = Ok _]. *)
Ltac exec_common :=
  unfold new_RdsModule, constructor; cbv zeta; do 4 run_new.

Ltac exec_aurora Hflag :=
  exec_common; rewrite bind_run, Hflag; run_new; cbn [app];
  rewrite bind_run;
  rewrite (for_lt_new_run instance_id (fun _ => RdsClusterInstance _))
    by first [exact instance_id_inj | lia | intros ? _; fresh_id];
  cbv beta iota; rewrite Z.sub_0_r;
  run_new; rewrite ret_run; cbv beta iota; rewrite ret_run;
  rewrite <- app_assoc.

Ltac exec_standalone Hflag :=
  exec_common; rewrite bind_run, Hflag;
  do 2 run_new; rewrite ret_run; cbv beta iota; rewrite ret_run;
  cbn [app].

(** X1: whatever the configuration, the children are created in a fixed
    order: the caller identity, the timestamp, the security group, the subnet
    group, then either the cluster, its instances numbered upwards from 0 and
    the cluster endpoint output, or the standalone instance and its endpoint
    output. *)
Theorem X1_children_order (config : RdsModuleConfig.t) :
  exists m sc,
    new_RdsModule config = Ok (m, sc) /\
    sc.*1 =
      if RdsModuleConfig.isAurora config
      then ["caller"; "timestamp"; "rds-sg"; "db-subnet-group"; "rds-cluster"] ++
           (instance_id <$>
              seqZ 0 (Js.or_number (RdsModuleConfig.numberOfInstances config) 1)) ++
           ["aurora_cluster_endpoint"]
      else ["caller"; "timestamp"; "rds-sg"; "db-subnet-group"; "rds-instance";
            "rds_instance_endpoint"].
Proof.
  destruct (RdsModuleConfig.isAurora config) eqn:Hflag.
  - eexists _, _. split; [exec_aurora Hflag; reflexivity|].
    rewrite !fmap_app, <- list_fmap_compose. reflexivity.
  - eexists _, _. split; [exec_standalone Hflag; reflexivity|]. reflexivity.
Qed.

(** X2: whatever the configuration, no two children share a construct id, so
    no registration is ever refused. *)
Theorem X2_construct_ids_distinct (config : RdsModuleConfig.t) :
  exists m sc, new_RdsModule config = Ok (m, sc) /\ NoDup sc.*1.
Proof.
  destruct (RdsModuleConfig.isAurora config) eqn:Hflag.
  - eexists _, _. split; [exec_aurora Hflag; reflexivity|].
    rewrite !fmap_app, <- list_fmap_compose.
    apply NoDup_app. split; [cbn; compute_done|].
    split.
    + intros x Hx [Hin|Hin]%elem_of_app.
      * apply list_elem_of_fmap in Hin as (i & -> & _).
        revert Hx. apply instance_id_fresh. vm_compute. reflexivity.
      * cbn in Hx, Hin. apply list_elem_of_singleton in Hin as ->.
        revert Hx. compute_done.
    + apply NoDup_app. split; [|split].
      * apply NoDup_fmap_2; [|apply NoDup_seqZ].
        intros j k. apply instance_id_inj.
      * intros x (i & -> & _)%list_elem_of_fmap Hin. cbn in Hin.
        apply list_elem_of_singleton in Hin.
        pose proof (instance_id_prefix i) as Hp. rewrite Hin in Hp.
        discriminate Hp.
      * cbn. apply NoDup_singleton.
  - eexists _, _. split; [exec_standalone Hflag; reflexivity|].
    cbn. compute_done.
Qed.

Section MoreChildren.
Context (config : RdsModuleConfig.t).
Context (sg : SecurityGroupConfig.t) (sub : DbSubnetGroupConfig.t).
Context (cl : RdsClusterConfig.t) (ci : RdsClusterInstanceConfig.t).
Context (db : DbInstanceConfig.t).

Lemma aurora_dbSubnetGroups :
  dbSubnetGroups (aurora_children config sg sub cl ci) =
  [("db-subnet-group", sub)].
Proof.
  unfold dbSubnetGroups, aurora_children.
  by rewrite !select_app, select_fmap.
Qed.

Lemma standalone_dbSubnetGroups :
  dbSubnetGroups (standalone_children sg sub db) = [("db-subnet-group", sub)].
Proof. reflexivity. Qed.

Lemma aurora_length :
  length (aurora_children config sg sub cl ci) =
  (6 + Z.to_nat (Js.or_number (RdsModuleConfig.numberOfInstances config) 1))%nat.
Proof.
  unfold aurora_children.
  rewrite !length_app, length_fmap, length_seqZ. cbn. lia.
Qed.
End MoreChildren.

(** Both branches at once, for a goal [exists m sc, new_RdsModule config =
    Ok (m, sc) /\ _]: the run is carried out and the children are left in
    the shape the lemmas on [aurora_children] and [standalone_children]
    expect. *)
Ltac more_exists := repeat lazymatch goal with |- ex _ => eexists end.

Ltac run_cases config Hflag :=
  destruct (RdsModuleConfig.isAurora config) eqn:Hflag;
  [ eexists _, (aurora_children config _ _ _ _); more_exists;
    split; [exec_aurora Hflag; reflexivity|]
  | eexists _, (standalone_children _ _ _); more_exists;
    split; [exec_standalone Hflag; reflexivity|] ].

Ltac only_child H :=
  apply list_elem_of_singleton in H; injection H as -> ->.

(** X3: with the clustered flag set and a negative instance count supplied,
    the loop body never runs: the cluster is emitted without any cluster
    instance, and the module has six children in all. *)
Theorem X3_negative_count_no_instance (config : RdsModuleConfig.t) (K : Z) :
  RdsModuleConfig.isAurora config = true ->
  RdsModuleConfig.numberOfInstances config = Some K ->
  K < 0 ->
  exists m sc cid cl,
    new_RdsModule config = Ok (m, sc) /\
    clusters sc = [(cid, cl)] /\
    clusterInstances sc = [] /\
    length sc = 6%nat.
Proof.
  intros Hflag HK Hneg.
  destruct (aurora_run config Hflag) as (sg & sub & cl & ci & Hrun & _).
  eexists _, _, "rds-cluster", cl. split; [exact Hrun|].
  split; [apply aurora_clusters|].
  rewrite aurora_clusterInstances, aurora_length, HK. unfold Js.or_number.
  destruct (Z.eqb_spec K 0); [lia|].
  rewrite seqZ_nil by lia. split; [reflexivity|lia].
Qed.

Lemma X3_negative_count_no_instance_witness :
  RdsModuleConfig.isAurora negative_instances = true /\
  RdsModuleConfig.numberOfInstances negative_instances = Some (-2) /\
  -2 < 0 /\
  exists m sc cid cl,
    new_RdsModule negative_instances = Ok (m, sc) /\
    clusters sc = [(cid, cl)] /\
    clusterInstances sc = [] /\
    length sc = 6%nat.
Proof.
  split; [reflexivity|]. split; [reflexivity|]. split; [lia|].
  exact (X3_negative_count_no_instance negative_instances (-2)
           eq_refl eq_refl ltac:(reflexivity)).
Defined.

(** X4: the one ingress rule is a tcp rule whose description names the
    engine family its port belongs to: "Allow PostgreSQL traffic" with port
    5432, "Allow MySQL traffic" with port 3306. *)
Theorem X4_ingress_description_matches_port (config : RdsModuleConfig.t) :
  exists m sc id sg rule,
    new_RdsModule config = Ok (m, sc) /\
    securityGroups sc = [(id, sg)] /\
    SecurityGroupConfig.ingress sg = [rule] /\
    SecurityGroupRule.protocol rule = "tcp" /\
    (SecurityGroupRule.fromPort rule = 5432 /\
     SecurityGroupRule.toPort rule = 5432 /\
     SecurityGroupRule.description rule = Some "Allow PostgreSQL traffic"
     \/
     SecurityGroupRule.fromPort rule = 3306 /\
     SecurityGroupRule.toPort rule = 3306 /\
     SecurityGroupRule.description rule = Some "Allow MySQL traffic").
Proof.
  assert (exists m sc, new_RdsModule config = Ok (m, sc) /\
            exists sg rule, securityGroups sc = [("rds-sg", sg)] /\
              SecurityGroupConfig.ingress sg = [rule] /\
              SecurityGroupRule.protocol rule = "tcp" /\
              SecurityGroupRule.fromPort rule = ingress_port config /\
              SecurityGroupRule.toPort rule = ingress_port config /\
              SecurityGroupRule.description rule =
                Some ("Allow " +:+
                      (if Js.includes (RdsModuleConfig.engine config) "postgres"
                       then "PostgreSQL" else "MySQL") +:+ " traffic"))
    as (m & sc & Hrun & sg & rule & Hsg & Hin & Hproto & Hfrom & Hto & Hdesc).
  { run_cases config Hflag.
    - rewrite aurora_securityGroups. eexists _, _. repeat split.
    - rewrite standalone_securityGroups. eexists _, _. repeat split. }
  exists m, sc, "rds-sg", sg, rule. do 4 (split; [assumption|]).
  rewrite Hfrom, Hto, Hdesc. unfold ingress_port.
  destruct (Js.includes (RdsModuleConfig.engine config) "postgres");
    [left|right]; repeat split.
Qed.

(** X5: the security group belongs to the supplied network and its ingress
    rule admits exactly the network's own IPv4 and IPv6 ranges, whatever the
    engine and the topology; its one egress rule is unrestricted (every
    protocol, every port, every IPv4 and IPv6 destination). *)
Theorem X5_security_group_scope (config : RdsModuleConfig.t) :
  exists m sc id sg rule out,
    new_RdsModule config = Ok (m, sc) /\
    securityGroups sc = [(id, sg)] /\
    SecurityGroupConfig.vpcId sg =
      VpcModule.vpc_id (RdsModuleConfig.vpc config) /\
    SecurityGroupConfig.ingress sg = [rule] /\
    SecurityGroupRule.cidrBlocks rule =
      [VpcModule.vpc_cidr (RdsModuleConfig.vpc config)] /\
    SecurityGroupRule.ipv6CidrBlocks rule =
      [VpcModule.vpc_ipv6_cidr (RdsModuleConfig.vpc config)] /\
    SecurityGroupConfig.egress sg = [out] /\
    SecurityGroupRule.protocol out = "-1" /\
    SecurityGroupRule.fromPort out = 0 /\
    SecurityGroupRule.toPort out = 0 /\
    SecurityGroupRule.cidrBlocks out = ["0.0.0.0/0"] /\
    SecurityGroupRule.ipv6CidrBlocks out = ["::/0"].
Proof.
  run_cases config Hflag.
  - rewrite aurora_securityGroups. repeat split.
  - rewrite standalone_securityGroups. repeat split.
Qed.

(** X6: the subnet group is given the network's database subnets as they
    are: the list when the network has one, and nothing when it has none
    (the constructor does not fail on the missing list). *)
Theorem X6_subnet_group_subnets (config : RdsModuleConfig.t) :
  exists m sc id sub,
    new_RdsModule config = Ok (m, sc) /\
    dbSubnetGroups sc = [(id, sub)] /\
    DbSubnetGroupConfig.subnetIds sub =
      VpcModule.database_subnet_ids (RdsModuleConfig.vpc config).
Proof.
  run_cases config Hflag.
  - rewrite aurora_dbSubnetGroups. repeat split.
  - rewrite standalone_dbSubnetGroups. repeat split.
Qed.

(** X7: the keys of the merged tag map are the six default keys together
    with the caller's keys: a caller can override a default tag and add
    tags, but cannot remove a default one. *)
Theorem X7_tag_keys (config : RdsModuleConfig.t) :
  exists m sc id sg,
    new_RdsModule config = Ok (m, sc) /\
    securityGroups sc = [(id, sg)] /\
    dom (SecurityGroupConfig.tags sg) =
      {[ "Name"; "Service"; "ENV"; "Provisioner"; "Provisioned By";
         "Provisioned Date" ]} ∪
      dom (default ∅ (RdsModuleConfig.tags config)).
Proof.
  destruct (common_run config) as (m & sc & sg & Hrun & Hsgs & Hsg & _).
  exists m, sc, "rds-sg", sg. split; [exact Hrun|]. split; [exact Hsgs|].
  rewrite (sg_tags _ _ Hsg). unfold final_tags, spread, defaultTags.
  rewrite dom_union_L, dom_fmap_L, !dom_insert_L, dom_singleton_L.
  apply set_eq. intros k. rewrite !elem_of_union, !elem_of_singleton. tauto.
Qed.

(** X8: when the caller supplies no tags, or an empty tag map, every tagged
    child carries exactly the six default tags. *)
Theorem X8_no_tags_gives_defaults (config : RdsModuleConfig.t) :
  RdsModuleConfig.tags config = None \/ RdsModuleConfig.tags config = Some ∅ ->
  exists m sc,
    new_RdsModule config = Ok (m, sc) /\
    forall id r t, (id, r) ∈ sc -> resource_tags r = Some t ->
      t = defaultTags (RdsModuleConfig.serviceName config)
            (RdsModuleConfig.env config) "caller" "timestamp".
Proof.
  intros Htags.
  destruct (common_run config) as (m & sc & sg & Hrun & _ & _ & Hall).
  exists m, sc. split; [exact Hrun|].
  assert (final_tags config =
          defaultTags (RdsModuleConfig.serviceName config)
            (RdsModuleConfig.env config) "caller" "timestamp") as <-.
  { unfold final_tags, spread.
    destruct Htags as [-> | ->]; cbn [from_option Datatypes.id];
      by rewrite fmap_empty, (left_id_L ∅ (∪)). }
  exact Hall.
Qed.

Lemma X8_no_tags_gives_defaults_witness :
  RdsModuleConfig.tags scenario_mysql = None /\
  exists m sc,
    new_RdsModule scenario_mysql = Ok (m, sc) /\
    forall id r t, (id, r) ∈ sc -> resource_tags r = Some t ->
      t = defaultTags "svc" "dev" "caller" "timestamp".
Proof.
  split; [reflexivity|].
  exact (X8_no_tags_gives_defaults scenario_mysql (or_introl eq_refl)).
Defined.

(** X9: whichever topology is chosen, the database resource takes the engine,
    the engine version, the database name, the credentials, the retention
    period and the backup and maintenance windows from the configuration,
    unchanged. *)
Theorem X9_database_settings (config : RdsModuleConfig.t) :
  exists m sc,
    new_RdsModule config = Ok (m, sc) /\
    (forall id cl, (id, cl) ∈ clusters sc ->
       RdsClusterConfig.engine cl = RdsModuleConfig.engine config /\
       RdsClusterConfig.engineVersion cl =
         RdsModuleConfig.engineVersion config /\
       RdsClusterConfig.databaseName cl = RdsModuleConfig.dbName config /\
       RdsClusterConfig.masterUsername cl = RdsModuleConfig.username config /\
       RdsClusterConfig.masterPassword cl = RdsModuleConfig.password config /\
       RdsClusterConfig.backupRetentionPeriod cl =
         RdsModuleConfig.backupRetentionPeriod config /\
       RdsClusterConfig.preferredBackupWindow cl =
         RdsModuleConfig.backupWindow config /\
       RdsClusterConfig.preferredMaintenanceWindow cl =
         RdsModuleConfig.maintenanceWindow config) /\
    (forall id db, (id, db) ∈ dbInstances sc ->
       DbInstanceConfig.engine db = RdsModuleConfig.engine config /\
       DbInstanceConfig.engineVersion db =
         RdsModuleConfig.engineVersion config /\
       DbInstanceConfig.dbName db = RdsModuleConfig.dbName config /\
       DbInstanceConfig.username db = RdsModuleConfig.username config /\
       DbInstanceConfig.password db = RdsModuleConfig.password config /\
       DbInstanceConfig.backupRetentionPeriod db =
         RdsModuleConfig.backupRetentionPeriod config /\
       DbInstanceConfig.backupWindow db =
         RdsModuleConfig.backupWindow config /\
       DbInstanceConfig.maintenanceWindow db =
         RdsModuleConfig.maintenanceWindow config).
Proof.
  run_cases config Hflag.
  - rewrite aurora_clusters, aurora_dbInstances. split.
    + intros id cl Hin. only_child Hin. repeat split.
    + intros id db Hin. by apply elem_of_nil in Hin.
  - rewrite standalone_clusters, standalone_dbInstances. split.
    + intros id cl Hin. by apply elem_of_nil in Hin.
    + intros id db Hin. only_child Hin. repeat split.
Qed.

(** X10: the database resource is attached to the module's own security
    group, the one the module exposes as its [securityGroup] field, and to
    no other, and it is placed in the module's own subnet group. *)
Theorem X10_database_wiring (config : RdsModuleConfig.t) :
  exists m sc sg subid sub,
    new_RdsModule config = Ok (m, sc) /\
    securityGroups sc = [(RdsModule.securityGroup m, sg)] /\
    dbSubnetGroups sc = [(subid, sub)] /\
    (forall id cl, (id, cl) ∈ clusters sc ->
       RdsClusterConfig.vpcSecurityGroupIds cl =
         [Token (RdsModule.securityGroup m) "id"] /\
       RdsClusterConfig.dbSubnetGroupName cl = Token subid "name") /\
    (forall id db, (id, db) ∈ dbInstances sc ->
       DbInstanceConfig.vpcSecurityGroupIds db =
         [Token (RdsModule.securityGroup m) "id"] /\
       DbInstanceConfig.dbSubnetGroupName db = Token subid "name").
Proof.
  run_cases config Hflag.
  - rewrite aurora_securityGroups, aurora_dbSubnetGroups, aurora_clusters,
      aurora_dbInstances.
    do 2 (split; [reflexivity|]). split.
    + intros id cl Hin. only_child Hin. repeat split.
    + intros id db Hin. by apply elem_of_nil in Hin.
  - rewrite standalone_securityGroups, standalone_dbSubnetGroups,
      standalone_clusters, standalone_dbInstances.
    do 2 (split; [reflexivity|]). split.
    + intros id cl Hin. by apply elem_of_nil in Hin.
    + intros id db Hin. only_child Hin. repeat split.
Qed.

(** X11: in the standalone branch the sizing class and the storage size are
    handed to the instance exactly as configured: no default is applied, an
    absent value stays absent and an empty sizing class stays empty. *)
Theorem X11_standalone_sizing_passed_on (config : RdsModuleConfig.t) :
  RdsModuleConfig.isAurora config = false ->
  exists m sc id db,
    new_RdsModule config = Ok (m, sc) /\
    dbInstances sc = [(id, db)] /\
    DbInstanceConfig.instanceClass db = RdsModuleConfig.instanceClass config /\
    DbInstanceConfig.allocatedStorage db =
      RdsModuleConfig.allocatedStorage config.
Proof.
  intros Hflag.
  destruct (standalone_run config Hflag)
    as (sg & sub & db & Hrun & _ & _ & Hdb).
  eexists _, _, "rds-instance", db. split; [exact Hrun|].
  split; [reflexivity|]. by destruct Hdb.
Qed.

Lemma X11_standalone_sizing_passed_on_witness :
  RdsModuleConfig.isAurora scenario_mysql = false /\
  exists m sc id db,
    new_RdsModule scenario_mysql = Ok (m, sc) /\
    dbInstances sc = [(id, db)] /\
    DbInstanceConfig.instanceClass db = Some "db.t3.small" /\
    DbInstanceConfig.allocatedStorage db = Some 20.
Proof.
  split; [reflexivity|].
  exact (X11_standalone_sizing_passed_on scenario_mysql eq_refl).
Defined.

Lemma string_app_assoc (a b c : string) : (a +:+ b) +:+ c = a +:+ b +:+ c.
Proof.
  induction a as [|x a IH]; [done|].
  change (String x a +:+ b) with (String x (a +:+ b)).
  change (String x (a +:+ b) +:+ c) with (String x ((a +:+ b) +:+ c)).
  change (String x a +:+ b +:+ c) with (String x (a +:+ b +:+ c)).
  by rewrite IH.
Qed.

(** X12: every resource name is the default [Name] tag value,
    serviceName-env, followed by a fixed suffix: -rds-sg for the security
    group, -db-subnet-group for the subnet group, -aurora-cluster for the
    cluster and -rds-instance for the standalone instance. *)
Theorem X12_resource_names (config : RdsModuleConfig.t) :
  let base :=
    RdsModuleConfig.serviceName config +:+ "-" +:+ RdsModuleConfig.env config in
  exists m sc sgid sg subid sub,
    new_RdsModule config = Ok (m, sc) /\
    defaultTags (RdsModuleConfig.serviceName config)
      (RdsModuleConfig.env config) "caller" "timestamp" !! "Name" =
      Some (Str base) /\
    securityGroups sc = [(sgid, sg)] /\
    SecurityGroupConfig.name sg = base +:+ "-rds-sg" /\
    dbSubnetGroups sc = [(subid, sub)] /\
    DbSubnetGroupConfig.name sub = base +:+ "-db-subnet-group" /\
    (forall id cl, (id, cl) ∈ clusters sc ->
       RdsClusterConfig.clusterIdentifier cl = base +:+ "-aurora-cluster") /\
    (forall id db, (id, db) ∈ dbInstances sc ->
       DbInstanceConfig.identifier db = base +:+ "-rds-instance").
Proof.
  intros base. subst base.
  run_cases config Hflag.
  - rewrite aurora_securityGroups, aurora_dbSubnetGroups, aurora_clusters,
      aurora_dbInstances.
    rewrite !string_app_assoc. split; [reflexivity|]. repeat split.
    + intros id cl Hin. only_child Hin. reflexivity.
    + intros id db Hin. by apply elem_of_nil in Hin.
  - rewrite standalone_securityGroups, standalone_dbSubnetGroups,
      standalone_clusters, standalone_dbInstances.
    rewrite !string_app_assoc. split; [reflexivity|]. repeat split.
    + intros id cl Hin. by apply elem_of_nil in Hin.
    + intros id db Hin. only_child Hin. reflexivity.
Qed.

(** X13: in the clustered branch the storage size plays no part: changing
    [allocatedStorage] alone leaves the module and all its children as they
    were. *)
Theorem X13_cluster_ignores_storage
    (config : RdsModuleConfig.t) (x : option Z) :
  RdsModuleConfig.isAurora config = true ->
  new_RdsModule (with_allocatedStorage x config) = new_RdsModule config.
Proof.
  intros Hflag. unfold new_RdsModule, constructor, with_allocatedStorage.
  cbv zeta. cbn [RdsModuleConfig.isAurora]. rewrite Hflag. reflexivity.
Qed.

Lemma X13_cluster_ignores_storage_witness :
  RdsModuleConfig.isAurora scenario_postgres = true /\
  new_RdsModule (with_allocatedStorage (Some 500) scenario_postgres) =
  new_RdsModule scenario_postgres.
Proof.
  split; [reflexivity|].
  exact (X13_cluster_ignores_storage scenario_postgres (Some 500) eq_refl).
Defined.

(** X14: in the standalone branch the instance count matters only through
    the test "supplied and greater than 1": two counts on the same side of
    that test (absent, 0, 1 and negative counts on one side, counts from 2 on
    on the other) give the same module and the same children. *)
Theorem X14_standalone_count_only_tested
    (config : RdsModuleConfig.t) (x y : option Z) :
  RdsModuleConfig.isAurora config = false ->
  Js.defined_and_gt x 1 = Js.defined_and_gt y 1 ->
  new_RdsModule (with_numberOfInstances x config) =
  new_RdsModule (with_numberOfInstances y config).
Proof.
  intros Hflag Hxy. unfold new_RdsModule, constructor, with_numberOfInstances.
  cbv zeta. cbn [RdsModuleConfig.isAurora RdsModuleConfig.numberOfInstances].
  rewrite Hflag, Hxy. reflexivity.
Qed.

Lemma X14_standalone_count_only_tested_witness :
  RdsModuleConfig.isAurora scenario_mysql = false /\
  Js.defined_and_gt None 1 = Js.defined_and_gt (Some (-3)) 1 /\
  new_RdsModule (with_numberOfInstances None scenario_mysql) =
  new_RdsModule (with_numberOfInstances (Some (-3)) scenario_mysql).
Proof.
  split; [reflexivity|]. split; [reflexivity|].
  exact (X14_standalone_count_only_tested scenario_mysql None (Some (-3))
           eq_refl eq_refl).
Defined.

Lemma string_length_app (a b : string) :
  String.length (a +:+ b) = (String.length a + String.length b)%nat.
Proof.
  induction a as [|x a IH]; [done|].
  change (String x a +:+ b) with (String x (a +:+ b)). cbn. by rewrite IH.
Qed.

Lemma includes_length (s p : string) :
  Js.includes s p = true -> (String.length p <= String.length s)%nat.
Proof.
  intros (pre & post & ->)%includes_spec. rewrite !string_length_app. lia.
Qed.

(** X15: an engine identifier of fewer than 8 characters, the empty one
    included, cannot contain the marker: the ingress rule then opens port
    3306. *)
Theorem X15_short_engine_port (config : RdsModuleConfig.t) :
  (String.length (RdsModuleConfig.engine config) < 8)%nat ->
  exists m sc id sg rule,
    new_RdsModule config = Ok (m, sc) /\
    securityGroups sc = [(id, sg)] /\
    SecurityGroupConfig.ingress sg = [rule] /\
    SecurityGroupRule.fromPort rule = 3306 /\
    SecurityGroupRule.toPort rule = 3306.
Proof.
  intros Hlen.
  destruct (common_run config) as (m & sc & sg & Hrun & Hsgs & Hsg & _).
  destruct Hsg as [Hfrom Hto _].
  destruct (SecurityGroupConfig.ingress sg) as [|rule [|rule' rules]] eqn:E;
    [discriminate Hfrom| |discriminate Hfrom].
  injection Hfrom as Hfrom. injection Hto as Hto.
  exists m, sc, "rds-sg", sg, rule. do 3 (split; [assumption|]).
  rewrite Hfrom, Hto. unfold ingress_port.
  destruct (Js.includes (RdsModuleConfig.engine config) "postgres") eqn:Hinc;
    [|done].
  apply includes_length in Hinc. cbn in Hinc. lia.
Qed.

Lemma X15_short_engine_port_witness :
  (String.length (RdsModuleConfig.engine short_engine) < 8)%nat /\
  exists m sc id sg rule,
    new_RdsModule short_engine = Ok (m, sc) /\
    securityGroups sc = [(id, sg)] /\
    SecurityGroupConfig.ingress sg = [rule] /\
    SecurityGroupRule.fromPort rule = 3306 /\
    SecurityGroupRule.toPort rule = 3306.
Proof.
  split; [cbn; lia|].
  apply (X15_short_engine_port short_engine). cbn. lia.
Defined.

Lemma tag_targets_final (config : RdsModuleConfig.t) (x : string) :
  x ∈ tag_targets (final_tags config) -> x ∈ ["caller"; "timestamp"].
Proof.
  unfold tag_targets. rewrite list_elem_of_bind.
  intros (v & Hx & Hv). apply list_elem_of_fmap in Hv as ([k v'] & -> & Hkv).
  apply elem_of_map_to_list in Hkv. cbn in Hx.
  destruct v' as [s|id attr]; cbn in Hx; [by apply elem_of_nil in Hx|].
  apply list_elem_of_singleton in Hx as ->.
  rewrite final_tags_lookup in Hkv.
  destruct (default ∅ (RdsModuleConfig.tags config) !! k); [discriminate|].
  unfold defaultTags in Hkv.
  repeat (apply lookup_insert_Some in Hkv as [[_ Hkv]|[_ Hkv]];
          [injection Hkv as <- _ || discriminate Hkv;
           rewrite !elem_of_cons; auto|]).
  apply lookup_singleton_Some in Hkv as [_ Hkv].
  injection Hkv as <- _. rewrite !elem_of_cons; auto.
Qed.

Ltac in_list :=
  repeat first [apply list_elem_of_here | apply list_elem_of_further].

(** [H : x ∈ l], with [l] an explicit list whose elements all occur in the
    explicit list of the goal. *)
Ltac sub_list H :=
  repeat (apply elem_of_cons in H as [->|H]; [in_list|]);
  by apply elem_of_nil in H.

Section References.
Context (config : RdsModuleConfig.t).
Context (sg : SecurityGroupConfig.t) (sub : DbSubnetGroupConfig.t).
Context (cl : RdsClusterConfig.t) (ci : RdsClusterInstanceConfig.t).
Context (db : DbInstanceConfig.t).
Context (Hsg : forall x, x ∈ references (SecurityGroup sg) ->
                         x ∈ ["caller"; "timestamp"]).
Context (Hsub : forall x, x ∈ references (DbSubnetGroup sub) ->
                          x ∈ ["caller"; "timestamp"]).
Context (Hcl : forall x, x ∈ references (RdsCluster cl) ->
           x ∈ ["caller"; "timestamp"; "rds-sg"; "db-subnet-group"]).
Context (Hci : forall x, x ∈ references (RdsClusterInstance ci) ->
           x ∈ ["caller"; "timestamp"; "rds-sg"; "db-subnet-group";
                "rds-cluster"]).
Context (Hdb : forall x, x ∈ references (DbInstance db) ->
           x ∈ ["caller"; "timestamp"; "rds-sg"; "db-subnet-group"]).

Lemma aurora_references (i : nat) (id x : string) (r : Resource) :
  aurora_children config sg sub cl ci !! i = Some (id, r) ->
  x ∈ references r ->
  x ∈ (take i (aurora_children config sg sub cl ci)).*1.
Proof.
  unfold aurora_children. intros Hi Hx.
  destruct i as [|[|[|[|[|i]]]]];
    try (cbn in Hi; injection Hi as <- <-).
  - by apply elem_of_nil in Hx.
  - by apply elem_of_nil in Hx.
  - by apply Hsg.
  - apply Hsub in Hx. cbn. sub_list Hx.
  - apply Hcl in Hx. cbn. exact Hx.
  - change (S (S (S (S (S i))))) with (5 + i)%nat in *.
    rewrite take_app_add'; [|reflexivity].
    rewrite fmap_app. apply elem_of_app. left. cbn.
    apply list_elem_of_lookup_2 in Hi.
    rewrite !elem_of_app, list_elem_of_fmap in Hi.
    destruct Hi as [Hi|[(j & [= _ ->] & _)|Hi]].
    + repeat (apply elem_of_cons in Hi as [[= _ ->]|Hi]);
        [by apply elem_of_nil in Hx..| | | |by apply elem_of_nil in Hi].
      * apply Hsg in Hx. sub_list Hx.
      * apply Hsub in Hx. sub_list Hx.
      * apply Hcl in Hx. sub_list Hx.
    + by apply Hci.
    + apply list_elem_of_singleton in Hi as [= _ ->]. cbn in Hx.
      sub_list Hx.
Qed.

Lemma standalone_references (i : nat) (id x : string) (r : Resource) :
  standalone_children sg sub db !! i = Some (id, r) ->
  x ∈ references r ->
  x ∈ (take i (standalone_children sg sub db)).*1.
Proof.
  unfold standalone_children. intros Hi Hx.
  destruct i as [|[|[|[|[|[|i]]]]]];
    try (cbn in Hi; injection Hi as <- <-); try discriminate Hi.
  - by apply elem_of_nil in Hx.
  - by apply elem_of_nil in Hx.
  - by apply Hsg.
  - apply Hsub in Hx. cbn. sub_list Hx.
  - apply Hdb in Hx. cbn. exact Hx.
  - cbn in Hx. cbn. sub_list Hx.
Qed.
End References.


(** X17: the four children every module starts with (the caller identity,
    the timestamp, the security group and the subnet group) depend on the
    service name, the environment, the engine, the network and the tags
    only: two configurations that agree on these five fields get the same
    four children, whatever their topology, credentials, sizing and backup
    settings. *)
Theorem X17_common_children (config1 config2 : RdsModuleConfig.t) :
  RdsModuleConfig.serviceName config1 = RdsModuleConfig.serviceName config2 ->
  RdsModuleConfig.env config1 = RdsModuleConfig.env config2 ->
  RdsModuleConfig.engine config1 = RdsModuleConfig.engine config2 ->
  RdsModuleConfig.vpc config1 = RdsModuleConfig.vpc config2 ->
  RdsModuleConfig.tags config1 = RdsModuleConfig.tags config2 ->
  exists m1 sc1 m2 sc2,
    new_RdsModule config1 = Ok (m1, sc1) /\
    new_RdsModule config2 = Ok (m2, sc2) /\
    (take 4 sc1).*1 = ["caller"; "timestamp"; "rds-sg"; "db-subnet-group"] /\
    take 4 sc1 = take 4 sc2.
Proof.
  intros Hservice Henv Hengine Hvpc Htags.
  destruct (RdsModuleConfig.isAurora config1) eqn:Hflag1;
    destruct (RdsModuleConfig.isAurora config2) eqn:Hflag2;
    eexists _, _, _, _;
    (split;
     [first [exec_aurora Hflag1 | exec_standalone Hflag1]; reflexivity|]);
    (split;
     [first [exec_aurora Hflag2 | exec_standalone Hflag2]; reflexivity|]);
    (split; [reflexivity|]);
    cbn [take app]; rewrite Hservice, Henv, Hengine, Hvpc, Htags;
    reflexivity.
Qed.

Lemma X17_common_children_witness :
  RdsModuleConfig.serviceName scenario_postgres =
    RdsModuleConfig.serviceName postgres_standalone /\
  RdsModuleConfig.env scenario_postgres =
    RdsModuleConfig.env postgres_standalone /\
  RdsModuleConfig.engine scenario_postgres =
    RdsModuleConfig.engine postgres_standalone /\
  RdsModuleConfig.vpc scenario_postgres =
    RdsModuleConfig.vpc postgres_standalone /\
  RdsModuleConfig.tags scenario_postgres =
    RdsModuleConfig.tags postgres_standalone /\
  exists m1 sc1 m2 sc2,
    new_RdsModule scenario_postgres = Ok (m1, sc1) /\
    new_RdsModule postgres_standalone = Ok (m2, sc2) /\
    (take 4 sc1).*1 = ["caller"; "timestamp"; "rds-sg"; "db-subnet-group"] /\
    take 4 sc1 = take 4 sc2.
Proof.
  do 5 (split; [reflexivity|]).
  exact (X17_common_children scenario_postgres postgres_standalone
           eq_refl eq_refl eq_refl eq_refl eq_refl).
Defined.
